(** * Web scraper with AI assistant: a shallow embedding of [main.py]

    The program fetches one page, collects the links to the same site,
    extracts the text of each page, stores it in the table [scraped_data]
    of a SQL Server database and forwards questions to a SQL agent.

    Python [str] values are modelled as [string]; one [ascii] stands for one
    character.  Python [int] values are [Z].  Everything outside the script
    (the HTTP client, the HTML parser, [urllib.parse], the database server,
    its clock and the agent) is reached through a record of oracles,
    [Env]; the script's own control flow, string handling, statement texts
    and exception handlers are written out. *)

From Stdlib Require Import String Ascii List ZArith Lia Bool Arith.
From Stdlib Require Import DecimalString Permutation Sorted.
Import ListNotations.

Local Open Scope string_scope.
Local Open Scope list_scope.
Local Open Scope Z_scope.

(* ================================================================== *)
(** ** Python built-ins used by the script *)

Module Py.

(** [str.isspace] on one character, restricted to the characters a
    one-byte code point can hold: TAB, LF, VT, FF, CR, FS, GS, RS, US,
    SPACE, NEL and NBSP. *)
Definition is_space (c : ascii) : bool :=
  let n := nat_of_ascii c in
  existsb (Nat.eqb n) [9; 10; 11; 12; 13; 28; 29; 30; 31; 32; 133; 160]%nat.

(** The line boundaries of [str.splitlines] other than CR LF. *)
Definition is_linebreak (c : ascii) : bool :=
  let n := nat_of_ascii c in
  existsb (Nat.eqb n) [10; 11; 12; 13; 28; 29; 30; 133]%nat.

Definition is_cr (c : ascii) : bool := Nat.eqb (nat_of_ascii c) 13.
Definition is_lf (c : ascii) : bool := Nat.eqb (nat_of_ascii c) 10.

Definition snoc (s : string) (c : ascii) : string := (s ++ String c EmptyString)%string.

Fixpoint lstrip (s : string) : string :=
  match s with
  | String c rest => if is_space c then lstrip rest else s
  | EmptyString => EmptyString
  end.

(** [rstrip] keeps a character when it is not a space or when something
    survives to its right. *)
Fixpoint rstrip (s : string) : string :=
  match s with
  | String c rest =>
      match rstrip rest with
      | EmptyString => if is_space c then EmptyString else String c EmptyString
      | kept => String c kept
      end
  | EmptyString => EmptyString
  end.

(** [s.strip()] *)
Definition strip (s : string) : string := rstrip (lstrip s).

(** [s.splitlines()]: [cur] is the line being read.  A final line with no
    terminator is kept only when it is not empty. *)
Fixpoint splitlines_from (cur : string) (s : string) : list string :=
  match s with
  | EmptyString => match cur with EmptyString => [] | _ => [cur] end
  | String c rest =>
      if is_cr c then
        match rest with
        | String c2 rest2 =>
            if is_lf c2 then cur :: splitlines_from EmptyString rest2
            else cur :: splitlines_from EmptyString rest
        | EmptyString => [cur]
        end
      else if is_linebreak c then cur :: splitlines_from EmptyString rest
      else splitlines_from (snoc cur c) rest
  end.

Definition splitlines (s : string) : list string := splitlines_from EmptyString s.

Definition is_blank (c : ascii) : bool := Nat.eqb (nat_of_ascii c) 32.

(** [s.split("  ")]: the separator is the two-space string of the script;
    occurrences are taken from the left and do not overlap. *)
Fixpoint split_two_spaces_from (cur : string) (s : string) : list string :=
  match s with
  | EmptyString => [cur]
  | String c rest =>
      match rest with
      | String c2 rest2 =>
          if is_blank c && is_blank c2
          then cur :: split_two_spaces_from EmptyString rest2
          else split_two_spaces_from (snoc cur c) rest
      | EmptyString => [snoc cur c]
      end
  end.

Definition split_two_spaces (s : string) : list string :=
  split_two_spaces_from EmptyString s.

(** [sep.join(l)] *)
Fixpoint join (sep : string) (l : list string) : string :=
  match l with
  | [] => EmptyString
  | [x] => x
  | x :: rest => (x ++ sep ++ join sep rest)%string
  end.

(** Truthiness of a [str]: the empty string is false. *)
Definition truthy (s : string) : bool :=
  match s with EmptyString => false | _ => true end.

Fixpoint str_take (n : nat) (s : string) : string :=
  match n, s with
  | S n', String c rest => String c (str_take n' rest)
  | _, _ => EmptyString
  end.

(** The stop index of a slice [x[:n]] of a sequence of length [len]: a
    negative [n] counts from the end, and the result is clamped to
    [0..len]. *)
Definition slice_stop (n : Z) (len : nat) : nat :=
  if n <? 0 then Z.to_nat (Z.of_nat len + n)
  else Nat.min (Z.to_nat n) len.

(** [s[:n]] on a string. *)
Definition str_slice_to (n : Z) (s : string) : string :=
  str_take (slice_stop n (String.length s)) s.

(** [l[:n]] on a list. *)
Definition slice_to {A : Type} (n : Z) (l : list A) : list A :=
  firstn (slice_stop n (List.length l)) l.

(** [x in l] on a list of strings. *)
Definition contains (x : string) (l : list string) : bool :=
  existsb (String.eqb x) l.

End Py.

(* ================================================================== *)
(** ** The parsed document ([BeautifulSoup]) *)

#[local] Set Warnings "-register-all".

Module Html.

(** A parsed page: text, comments and tags with their attributes.  Tag and
    attribute names are as the parser delivers them (lower case). *)
Inductive node : Type :=
| Text (s : string)
| Comment (s : string)
| Tag (name : string) (attrs : list (string * string)) (children : list node).

Definition soup : Type := list node.

Fixpoint attr (key : string) (attrs : list (string * string)) : option string :=
  match attrs with
  | [] => None
  | (k, v) :: rest => if String.eqb k key then Some v else attr key rest
  end.

(** [tag.get_text()]: the text nodes below the node, in document order,
    joined with nothing between them; comments are left out.  Versions of
    the library from 4.10 on also leave out the strings inside [rt], [rp]
    and [template]; they are kept here, which bears on the value of the
    extracted text only. *)
Fixpoint get_text (n : node) : string :=
  match n with
  | Text s => s
  | Comment _ => EmptyString
  | Tag _ _ children => String.concat EmptyString (map get_text children)
  end.

Definition soup_get_text (doc : soup) : string :=
  String.concat EmptyString (map get_text doc).

(** [find_all] in document order: a tag comes before its descendants. *)
Fixpoint find_all (want : string -> list (string * string) -> bool)
         (n : node) : list node :=
  match n with
  | Tag name attrs children =>
      (if want name attrs then [n] else []) ++ flat_map (find_all want) children
  | _ => []
  end.

Definition soup_find_all (want : string -> list (string * string) -> bool)
           (doc : soup) : list node :=
  flat_map (find_all want) doc.

(** [soup.find_all('a', href=True)] followed by [link['href']]. *)
Definition is_anchor_with_href (name : string) (attrs : list (string * string)) : bool :=
  String.eqb name "a" && match attr "href" attrs with Some _ => true | None => false end.

Definition href_of (n : node) : list string :=
  match n with
  | Tag _ attrs _ => match attr "href" attrs with Some v => [v] | None => [] end
  | _ => []
  end.

Definition anchor_hrefs (doc : soup) : list string :=
  flat_map href_of (soup_find_all is_anchor_with_href doc).

(** [soup.find('title')]: the first match of [find_all], if any. *)
Definition find_title (doc : soup) : option node :=
  match soup_find_all (fun name _ => String.eqb name "title") doc with
  | t :: _ => Some t
  | [] => None
  end.

(** [for script in soup(["script", "style"]): script.decompose()]: every
    tag with one of the names leaves the tree together with what is below
    it. *)
Fixpoint decompose (names : list string) (n : node) : list node :=
  match n with
  | Tag name attrs children =>
      if Py.contains name names then []
      else [Tag name attrs (flat_map (decompose names) children)]
  | other => [other]
  end.

Definition soup_decompose (names : list string) (doc : soup) : soup :=
  flat_map (decompose names) doc.

End Html.

(* ================================================================== *)
(** ** The table [scraped_data] and the statements run against it *)

Module Sql.

(** One row of
    [scraped_data (id INT IDENTITY(1,1) PRIMARY KEY, url, title, content,
    scraped_at DATETIME DEFAULT GETDATE())].  The script only ever stores
    Python strings in the three text columns. *)
Record row : Type := mkRow {
  r_id : Z;
  r_url : string;
  r_title : string;
  r_content : string;
  r_scraped_at : Z
}.

(** The table: its rows in insertion order and the next value of the
    identity column. *)
Record table : Type := mkTable {
  rows : list row;
  next_identity : Z
}.

(** [IDENTITY(1,1)] on a fresh table. *)
Definition empty_table : table := {| rows := []; next_identity := 1 |}.

(** The largest value of an [INT] column. *)
Definition INT_MAX : Z := 2147483647.

(** *** LIKE patterns *)

Inductive pat_item : Type :=
| PLit (c : ascii)                           (* the character itself *)
| POne                                       (* [_]: any one character *)
| PMany                                      (* [%]: any string *)
| PClass (negated : bool) (ranges : list (ascii * ascii))
                                             (* [[a-f]], [[^xyz]] *)
| PNever.                                    (* a class left open *)

Definition is_percent (c : ascii) : bool := Ascii.eqb c "%".
Definition is_underscore (c : ascii) : bool := Ascii.eqb c "_".
Definition is_lbracket (c : ascii) : bool := Ascii.eqb c "[".
Definition is_rbracket (c : ascii) : bool := Ascii.eqb c "]".
Definition is_quote (c : ascii) : bool := Ascii.eqb c "'".

(** The members of a class: [lo-hi] is a range, any other character
    stands for itself. *)
Fixpoint class_ranges (cs : list ascii) : list (ascii * ascii) :=
  match cs with
  | lo :: rest =>
      match rest with
      | dash :: hi :: rest' =>
          if Ascii.eqb dash "-" then (lo, hi) :: class_ranges rest'
          else (lo, lo) :: class_ranges rest
      | _ => (lo, lo) :: class_ranges rest
      end
  | [] => []
  end.

Definition make_class (cs : list ascii) : pat_item :=
  match cs with
  | c :: rest =>
      if Ascii.eqb c "^" then PClass true (class_ranges rest)
      else PClass false (class_ranges cs)
  | [] => PClass false []
  end.

(** Reading a pattern left to right.  [open] holds the characters of the
    class being read, when one is open; the first closing bracket ends
    it.  A class still open at the end of the pattern matches nothing. *)
Fixpoint parse_pattern (open : option (list ascii)) (s : string) : list pat_item :=
  match s with
  | EmptyString => match open with Some _ => [PNever] | None => [] end
  | String c rest =>
      match open with
      | Some cs =>
          if is_rbracket c then make_class cs :: parse_pattern None rest
          else parse_pattern (Some (cs ++ [c])) rest
      | None =>
          if is_percent c then PMany :: parse_pattern None rest
          else if is_underscore c then POne :: parse_pattern None rest
          else if is_lbracket c then parse_pattern (Some []) rest
          else PLit c :: parse_pattern None rest
      end
  end.

Section Like.

(** The collation of the column: [collate c] is the key under which the
    server compares [c] (the character itself for a binary collation,
    its case-folded form for a case-insensitive one). *)
Variable collate : ascii -> ascii.

Definition same_char (a b : ascii) : bool := Ascii.eqb (collate a) (collate b).

Definition in_range (c : ascii) (r : ascii * ascii) : bool :=
  let k := nat_of_ascii (collate c) in
  Nat.leb (nat_of_ascii (collate (fst r))) k
  && Nat.leb k (nat_of_ascii (collate (snd r))).

Definition item_accepts (it : pat_item) (c : ascii) : bool :=
  match it with
  | PLit a => same_char a c
  | POne => true
  | PMany => true
  | PClass negated ranges => xorb negated (existsb (in_range c) ranges)
  | PNever => false
  end.

(** Does the whole string match the items? *)
Fixpoint like_items (items : list pat_item) : string -> bool :=
  match items with
  | [] => fun s => match s with EmptyString => true | _ => false end
  | PMany :: items' =>
      fix many (s : string) : bool :=
        like_items items' s
        || match s with
           | String _ rest => many rest
           | EmptyString => false
           end
  | it :: items' =>
      fun s =>
        match s with
        | String c rest => item_accepts it c && like_items items' rest
        | EmptyString => false
        end
  end.

(** [value LIKE pattern] *)
Definition like (value pattern : string) : bool :=
  like_items (parse_pattern None pattern) value.

(** [p] is a prefix of [s] for the collation. *)
Fixpoint starts_with (p s : string) : bool :=
  match p, s with
  | EmptyString, _ => true
  | String a p', String b s' => same_char a b && starts_with p' s'
  | String _ _, EmptyString => false
  end.

(** [DELETE FROM scraped_data WHERE url LIKE pattern] *)
Definition delete_where_url_like (pattern : string) (t : table) : table :=
  {| rows := filter (fun r => negb (like (r_url r) pattern)) (rows t);
     next_identity := next_identity t |}.

End Like.

(** A pattern text the server reads as the script means it: no quote and
    none of the characters LIKE gives a meaning to. *)
Definition plain_char (c : ascii) : bool :=
  negb (is_quote c || is_percent c || is_underscore c || is_lbracket c).

Fixpoint plain (s : string) : bool :=
  match s with
  | EmptyString => true
  | String c rest => plain_char c && plain rest
  end.

(** The collation that compares characters as they are. *)
Definition binary_collation (c : ascii) : ascii := c.

(** A collation that ignores the case of the letters A to Z. *)
Definition ci_collation (c : ascii) : ascii :=
  let n := nat_of_ascii c in
  if Nat.leb 65 n && Nat.leb n 90 then ascii_of_nat (n + 32) else c.

(** *** Statement text *)

(** The end of a string literal whose opening quote has been read: a
    doubled quote is one quote of the value, a single one closes the
    literal.  The result is the value and the text after the literal. *)
Fixpoint lex_literal (s : string) : option (string * string) :=
  match s with
  | EmptyString => None
  | String c rest =>
      if is_quote c then
        match rest with
        | String c2 rest2 =>
            if is_quote c2 then
              match lex_literal rest2 with
              | Some (v, tail) => Some (String c v, tail)
              | None => None
              end
            else Some (EmptyString, rest)
        | EmptyString => Some (EmptyString, EmptyString)
        end
      else
        match lex_literal rest with
        | Some (v, tail) => Some (String c v, tail)
        | None => None
        end
  end.

Fixpoint strip_prefix (p s : string) : option string :=
  match p, s with
  | EmptyString, _ => Some s
  | String a p', String b s' => if Ascii.eqb a b then strip_prefix p' s' else None
  | String _ _, EmptyString => None
  end.

Inductive statement : Type :=
| DeleteUrlLike (pattern : string)  (* the head, one literal, nothing more *)
| UnclosedLiteral                   (* the literal never ends *)
| OtherStatement.                   (* any other text *)

Definition delete_like_head : string := "DELETE FROM scraped_data WHERE url LIKE '".

Definition classify (text : string) : statement :=
  match strip_prefix delete_like_head text with
  | Some body =>
      match lex_literal body with
      | Some (pattern, EmptyString) => DeleteUrlLike pattern
      | Some (_, String _ _) => OtherStatement
      | None => UnclosedLiteral
      end
  | None => OtherStatement
  end.

(** [INSERT INTO scraped_data (url, title, content) VALUES (?, ?, ?)] with
    the clock reading [now] for the default of [scraped_at]. *)
Definition insert_row (u t c : string) (now : Z) (tb : table) : table :=
  {| rows := rows tb ++ [mkRow (next_identity tb) u t c now];
     next_identity := next_identity tb + 1 |}.

(** [ORDER BY scraped_at DESC] by insertion.  Among rows of one and the same
    time, an order the server leaves open, the later row comes first. *)
Fixpoint insert_desc (r : row) (sorted : list row) : list row :=
  match sorted with
  | [] => [r]
  | x :: rest =>
      if r_scraped_at x <? r_scraped_at r then r :: sorted
      else x :: insert_desc r rest
  end.

Definition order_by_scraped_at_desc (l : list row) : list row :=
  fold_right insert_desc [] l.

End Sql.

(* ================================================================== *)
(** ** The world outside the script *)

(** What a call gives back: a value, or an exception with its [str(e)]. *)
Inductive result (A : Type) : Type :=
| Returned (a : A)
| Raised (msg : string).

Arguments Returned {A} a.
Arguments Raised {A} msg.

(** One call of [requests.get]. *)
Record Request : Type := mkRequest {
  req_method : string;
  req_url : string;
  req_headers : list (string * string);
  req_timeout : option Z
}.

Record Response : Type := mkResponse {
  status_code : Z;
  resp_content : string
}.

(** The boxes the page shows: [st.error], [st.success], [st.info]. *)
Inductive level : Type := Error | Success | Info.

(** The state the script acts on.  [shown] and [sent] grow at the end;
    [ticks] counts the calls that left the script, so that an oracle can
    answer differently at different moments. *)
Record World : Type := mkWorld {
  store : option Sql.table;          (* [None]: the table does not exist *)
  shown : list (level * string);
  sent : list Request;
  ticks : nat
}.

(** The oracles.  The first argument of an oracle that depends on the moment
    is the value of [ticks] at the call. *)
Record Env : Type := mkEnv {
  (** [requests.get]: the response, or a [RequestException]. *)
  http : nat -> Request -> result Response;
  (** [BeautifulSoup(content, 'html.parser')] *)
  html_parser : string -> result Html.soup;
  (** [urllib.parse.urljoin(base, url)]; it raises [ValueError] on some
      malformed addresses. *)
  urljoin : string -> string -> result string;
  (** [urllib.parse.urlparse(url).netloc] *)
  netloc : string -> result string;
  (** The host inside a netloc, as [urlparse(url).hostname] derives it. *)
  hostname : string -> string;
  (** A failure of the connection at a call of [pyodbc]. *)
  db_fault : nat -> option string;
  (** [GETDATE()] on the server. *)
  getdate : nat -> Z;
  (** The collation of the column [url]. *)
  collation : ascii -> ascii;
  (** What the server does with a statement text other than the one
      [DELETE ... LIKE] literal: an error, if any, and the table it leaves. *)
  run_other : nat -> string -> option Sql.table -> option string * option Sql.table;
  (** [agent_executor.run(user_text)] with its model, key and connection:
      the answer or an exception, and the table the generated statements
      leave. *)
  agent : nat -> string -> string -> option Sql.table -> result string * option Sql.table
}.

(** The dictionary [scrape_page] returns. *)
Record page_data : Type := mkPage {
  d_url : string;
  d_title : string;
  d_content : string
}.

(* ================================================================== *)
(** ** Computations that act on the world and may raise *)

Definition M (A : Type) : Type := World -> result A * World.

Definition ret {A : Type} (a : A) : M A := fun w => (Returned a, w).

Definition raise {A : Type} (msg : string) : M A := fun w => (Raised msg, w).

Definition bind {A B : Type} (m : M A) (k : A -> M B) : M B :=
  fun w =>
    match m w with
    | (Returned a, w') => k a w'
    | (Raised msg, w') => (Raised msg, w')
    end.

Definition lift {A : Type} (r : result A) : M A := fun w => (r, w).

(** [try: body  except Exception as e: handler(str(e))] *)
Definition try_except {A : Type} (body : M A) (handler : string -> M A) : M A :=
  fun w =>
    match body w with
    | (Returned a, w') => (Returned a, w')
    | (Raised msg, w') => handler msg w'
    end.

Declare Scope script_scope.
Delimit Scope script_scope with script.
Notation "x <- m ;; k" := (bind m (fun x => k))
  (at level 61, m at next level, right associativity) : script_scope.
Notation "m ;; k" := (bind m (fun _ => k))
  (at level 61, right associativity) : script_scope.
Local Open Scope script_scope.

Definition set_store (s : option Sql.table) (w : World) : World :=
  {| store := s; shown := shown w; sent := sent w; ticks := ticks w |}.

Definition tick (w : World) : World :=
  {| store := store w; shown := shown w; sent := sent w; ticks := S (ticks w) |}.

Definition show (lv : level) (msg : string) : M unit :=
  fun w =>
    (Returned tt,
     {| store := store w; shown := shown w ++ [(lv, msg)];
        sent := sent w; ticks := ticks w |}).

Definition st_error : string -> M unit := show Error.
Definition st_success : string -> M unit := show Success.
Definition st_info : string -> M unit := show Info.

(** The pure part of a [for] loop body that may raise. *)
Definition rbind {A B : Type} (r : result A) (k : A -> result B) : result B :=
  match r with
  | Returned a => k a
  | Raised msg => Raised msg
  end.

(** What is left of a transaction that is not committed: the rows are the
    old ones, an identity value that was handed out stays used. *)
Definition rollback (old pending : option Sql.table) : option Sql.table :=
  match old, pending with
  | Some o, Some p => Some {| Sql.rows := Sql.rows o;
                              Sql.next_identity := Sql.next_identity p |}
  | _, _ => old
  end.

(* ================================================================== *)
(** ** The script *)

Section Script.

Variable E : Env.

(** *** Calls that leave the script *)

(** [requests.get(url, headers=..., timeout=...)]; the call is recorded
    whether it succeeds or not. *)
Definition requests_get (url : string) (headers : list (string * string))
           (timeout : option Z) : M Response :=
  fun w =>
    let rq := mkRequest "GET" url headers timeout in
    (http E (ticks w) rq,
     {| store := store w; shown := shown w;
        sent := sent w ++ [rq]; ticks := S (ticks w) |}).

(** [response.raise_for_status()]: an [HTTPError] for a status from 400 to
    599.  The message stands for the one of [requests], which also spells
    out the status. *)
Definition raise_for_status (url : string) (r : Response) : M unit :=
  if (400 <=? status_code r) && (status_code r <? 600)
  then raise ("HTTP Error for url: " ++ url)%string
  else ret tt.

(** [pyodbc.connect(conn_str)] *)
Definition pyodbc_connect : M unit :=
  fun w =>
    (match db_fault E (ticks w) with
     | Some msg => Raised msg
     | None => Returned tt
     end, tick w).

Definition no_table : string := "Invalid object name 'scraped_data'.".

(** [cursor.execute(create_table_query)]: the table is created when it
    does not exist.  The result is the table as the open transaction sees
    it. *)
Definition execute_create : M (option Sql.table) :=
  fun w =>
    (match db_fault E (ticks w) with
     | Some msg => Raised msg
     | None =>
         Returned (match store w with
                   | None => Some Sql.empty_table
                   | Some t => Some t
                   end)
     end, tick w).

(** [cursor.execute(insert_query, (url, title, content))] *)
Definition execute_insert (d : page_data) : M (option Sql.table) :=
  fun w =>
    (match db_fault E (ticks w) with
     | Some msg => Raised msg
     | None =>
         match store w with
         | None => Raised no_table
         | Some t =>
             if Sql.INT_MAX <? Sql.next_identity t
             then Raised "Arithmetic overflow error converting IDENTITY to data type int."
             else Returned (Some (Sql.insert_row (d_url d) (d_title d) (d_content d)
                                                 (getdate E (ticks w)) t))
         end
     end, tick w).

(** [cursor.execute(text)] for a text built by the script. *)
Definition execute_text (text : string) : M (option Sql.table) :=
  fun w =>
    match db_fault E (ticks w) with
    | Some msg => (Raised msg, tick w)
    | None =>
        match Sql.classify text with
        | Sql.DeleteUrlLike pattern =>
            (match store w with
             | None => Raised no_table
             | Some t =>
                 Returned (Some (Sql.delete_where_url_like (collation E) pattern t))
             end, tick w)
        | Sql.UnclosedLiteral =>
            (Raised "Unclosed quotation mark after the character string.", tick w)
        | Sql.OtherStatement =>
            match run_other E (ticks w) text (store w) with
            | (None, pending) => (Returned pending, tick w)
            | (Some msg, after) => (Raised msg, tick (set_store after w))
            end
        end
    end.

(** [conn.commit()] *)
Definition conn_commit (pending : option Sql.table) : M unit :=
  fun w =>
    match db_fault E (ticks w) with
    | Some msg => (Raised msg, tick (set_store (rollback (store w) pending) w))
    | None => (Returned tt, tick (set_store pending w))
    end.

(** [pd.read_sql("SELECT * FROM scraped_data ORDER BY scraped_at DESC", conn)] *)
Definition read_sql : M (list Sql.row) :=
  fun w =>
    (match db_fault E (ticks w) with
     | Some msg => Raised msg
     | None =>
         match store w with
         | None => Raised no_table
         | Some t => Returned (Sql.order_by_scraped_at_desc (Sql.rows t))
         end
     end, tick w).

(** [ChatGroq(...)], [SQLDatabase.from_uri(...)], [create_sql_agent(...)]
    and [agent_executor.run(user_text)] *)
Definition agent_run (user_text api_key : string) : M string :=
  fun w =>
    let (r, after) := agent E (ticks w) api_key user_text (store w) in
    (r, tick (set_store after w)).

(** *** [create_database_table] *)
Definition create_database_table : M bool :=
  try_except
    (pyodbc_connect ;;
     pending <- execute_create ;;
     conn_commit pending ;;
     ret true)
    (fun e =>
       st_error ("Database table creation error: " ++ e)%string ;;
       ret false).

(** *** [get_page_links] *)

(** The body of [for link in soup.find_all('a', href=True)], with [links]
    the list built so far.  [Returned] is the list when the loop ends or
    breaks. *)
Fixpoint collect_links (base_url : string) (max_pages : Z)
         (hrefs : list string) (links : list string) : result (list string) :=
  match hrefs with
  | [] => Returned links
  | href :: rest =>
      rbind (urljoin E base_url href) (fun full_url =>
      rbind (netloc E full_url) (fun n_full =>
      rbind (netloc E base_url) (fun n_base =>
        if String.eqb n_full n_base then
          let links' :=
            if negb (Py.contains full_url links) then links ++ [full_url] else links in
          if Z.of_nat (List.length links') >=? max_pages then Returned links'
          else collect_links base_url max_pages rest links'
        else collect_links base_url max_pages rest links)))
  end.

Definition get_page_links (base_url : string) (max_pages : Z) : M (list string) :=
  try_except
    (response <- requests_get base_url [] (Some 10) ;;
     raise_for_status base_url response ;;
     soup <- lift (html_parser E (resp_content response)) ;;
     links <- lift (collect_links base_url max_pages
                                  (Html.anchor_hrefs soup) [base_url]) ;;
     ret (Py.slice_to max_pages links))
    (fun e =>
       st_error ("Error getting page links: " ++ e)%string ;;
       ret [base_url]).

(** *** [scrape_page] *)

Definition user_agent : string :=
  "Mozilla/5.0 (Windows NT 10.0; Win64; x64) AppleWebKit/537.36 (KHTML, like Gecko) Chrome/91.0.4472.124 Safari/537.36".

(** The three lines under [# Clean up the text]. *)
Definition clean_text (content : string) : string :=
  let lines := map Py.strip (Py.splitlines content) in
  let chunks :=
    flat_map (fun line => map Py.strip (Py.split_two_spaces line)) lines in
  Py.join " " (filter Py.truthy chunks).

Definition scrape_page (url : string) : M (option page_data) :=
  try_except
    (let headers := [("User-Agent", user_agent)] in
     response <- requests_get url headers (Some 10) ;;
     raise_for_status url response ;;
     soup <- lift (html_parser E (resp_content response)) ;;
     let title := Html.find_title soup in
     let title_text :=
       match title with
       | Some t => Py.strip (Html.get_text t)
       | None => "No Title"
       end in
     let soup := Html.soup_decompose ["script"; "style"] soup in
     let content := Html.soup_get_text soup in
     let content_text := clean_text content in
     ret (Some {| d_url := url;
                  d_title := title_text;
                  d_content := Py.str_slice_to 5000 content_text |}))
    (fun e =>
       st_error ("Error scraping " ++ url ++ ": " ++ e)%string ;;
       ret None).

(** *** [save_to_database] *)
Definition save_to_database (data : page_data) : M bool :=
  try_except
    (pyodbc_connect ;;
     pending <- execute_insert data ;;
     conn_commit pending ;;
     ret true)
    (fun e =>
       st_error ("Database save error: " ++ e)%string ;;
       ret false).

(** *** [get_scraped_data]; the empty list is the empty data frame. *)
Definition get_scraped_data : M (list Sql.row) :=
  try_except
    (pyodbc_connect ;;
     df <- read_sql ;;
     ret df)
    (fun e =>
       st_error ("Database retrieval error: " ++ e)%string ;;
       ret []).

(** *** [clear_database] *)

(** [f'DELETE FROM scraped_data WHERE url LIKE \'{u}%\''] *)
Definition clear_statement (u : string) : string :=
  ("DELETE FROM scraped_data WHERE url LIKE '" ++ u ++ "%'")%string.

Definition clear_database (u : string) : M bool :=
  try_except
    (pyodbc_connect ;;
     pending <- execute_text (clear_statement u) ;;
     conn_commit pending ;;
     ret true)
    (fun e =>
       st_error ("Database clear error: " ++ e)%string ;;
       ret false).

(** *** [agent_sql_tool] *)
Definition agent_sql_tool (user_text api_key : string) : M (option string) :=
  try_except
    (answer <- agent_run user_text api_key ;;
     ret (Some answer))
    (fun e =>
       st_error ("Agent error: " ++ e)%string ;;
       ret None).

(** *** Parts of [main] *)

(** [if clear_data_button:] with [url] the content of the address field.
    The pictographs of the messages are left out. *)
Definition main_clear (url : string) : M unit :=
  ok <- clear_database url ;;
  if ok : bool then st_success "Database cleared successfully!"
  else st_error "Failed to clear database.".

(** The body of [for i, link in enumerate(links)] without the progress
    bar and the pause; the result tells whether [scraped_count] grows. *)
Definition main_scrape_one (link : string) : M bool :=
  data <- scrape_page link ;;
  match data with
  | Some d =>
      ok <- save_to_database d ;;
      if ok : bool then
        st_success ("Scraped and saved: " ++ d_title d)%string ;; ret true
      else
        st_error ("Failed to save: " ++ link)%string ;; ret false
  | None => ret false
  end.

Fixpoint main_scrape_loop (links : list string) (scraped_count : Z) : M Z :=
  match links with
  | [] => ret scraped_count
  | link :: rest =>
      ok <- main_scrape_one link ;;
      main_scrape_loop rest (if ok : bool then scraped_count + 1 else scraped_count)
  end.

(** *** Notions the properties are stated with *)

(** The host of an address, when the address can be parsed. *)
Definition url_host (u : string) : option string :=
  match netloc E u with
  | Returned n => Some (hostname E n)
  | Raised _ => None
  end.

(** [full] is the absolute form of a link of the page on the same site
    as [base_url], by the test of the script: the two netlocs are equal,
    character for character. *)
Definition same_domain (base_url full : string) : bool :=
  match netloc E full, netloc E base_url with
  | Returned a, Returned b => String.eqb a b
  | _, _ => false
  end.

(** The absolute forms of the links, in page order; a link that cannot be
    resolved is left out. *)
Definition resolved (base_url : string) (hrefs : list string) : list string :=
  flat_map (fun href => match urljoin E base_url href with
                        | Returned u => [u]
                        | Raised _ => []
                        end) hrefs.

(** No link of the page makes [urllib.parse] raise. *)
Definition parses (base_url : string) (hrefs : list string) : Prop :=
  (exists n, netloc E base_url = Returned n)
  /\ forall href, In href hrefs ->
       exists u n, urljoin E base_url href = Returned u /\ netloc E u = Returned n.

(** The request [get_page_links] sends for the seed. *)
Definition seed_request (base_url : string) : Request :=
  mkRequest "GET" base_url [] (Some 10).

(** The links found on the seed page when it is fetched at [w]; none when
    the fetch or the parser fails. *)
Definition page_hrefs (base_url : string) (w : World) : list string :=
  match http E (ticks w) (seed_request base_url) with
  | Returned r =>
      if (400 <=? status_code r) && (status_code r <? 600) then []
      else match html_parser E (resp_content r) with
           | Returned soup => Html.anchor_hrefs soup
           | Raised _ => []
           end
  | Raised _ => []
  end.

(** The number of distinct addresses among the links of the page that
    pass the test of the script (equal netloc), the seed's own address left
    out when [but_seed] is set. *)
Definition count_links (but_seed : bool) (base_url : string)
           (hrefs : list string) : nat :=
  List.length
    (nodup string_dec
       (filter (fun u => same_domain base_url u
                         && negb (but_seed && String.eqb u base_url))
               (resolved base_url hrefs))).

(** The three calls of a database function find the server at [w]. *)
Definition db_answers (w : World) : Prop :=
  db_fault E (ticks w) = None
  /\ db_fault E (S (ticks w)) = None
  /\ db_fault E (S (S (ticks w))) = None.

End Script.

(* ================================================================== *)
(** ** Worlds and failures the properties speak of *)

(** The world after the handler of a function has reported [msg]. *)
Definition reported (msg : string) (w : World) : World :=
  {| store := store w; shown := shown w ++ [(Error, msg)];
     sent := sent w; ticks := ticks w |}.

(** The world after a request was sent. *)
Definition requested (rq : Request) (w : World) : World :=
  {| store := store w; shown := shown w; sent := sent w ++ [rq];
     ticks := S (ticks w) |}.

Definition is_http_error (r : Response) : bool :=
  (400 <=? status_code r) && (status_code r <? 600).

(** The fetch of [rq] at [w] fails: the client raises, or the status is one
    [raise_for_status] turns into an exception. *)
Definition fetch_fails (E : Env) (rq : Request) (w : World) : Prop :=
  (exists e, http E (ticks w) rq = Raised e)
  \/ (exists r, http E (ticks w) rq = Returned r /\ is_http_error r = true).

(** The request [scrape_page] sends. *)
Definition page_request (url : string) : Request :=
  mkRequest "GET" url [("User-Agent", user_agent)] (Some 10).

(** The world after the three calls of a database function that ended with
    the table [s]. *)
Definition committed (s : option Sql.table) (w : World) : World :=
  {| store := s; shown := shown w; sent := sent w;
     ticks := S (S (S (ticks w))) |}.

(** The first failure of the connection among the [n] calls that start at
    tick [t]. *)
Fixpoint first_fault (E : Env) (t : nat) (n : nat) : option string :=
  match n with
  | O => None
  | S n' =>
      match db_fault E t with
      | Some e => Some e
      | None => first_fault E (S t) n'
      end
  end.

(** [op] never raises: it returns, and either it showed nothing, or it
    showed one error that starts with [prefix] and returned [sentinel]. *)
Definition guarded {A : Type} (op : M A) (prefix : string) (sentinel : A) : Prop :=
  forall w, exists v w',
    op w = (Returned v, w')
    /\ (shown w' = shown w
        \/ exists e, shown w' = shown w ++ [(Error, (prefix ++ e)%string)]
                     /\ v = sentinel).

(** [op] at [w] returns [sentinel] after showing the error [prefix ++ e]. *)
Definition gives_up {A : Type} (op : M A) (w : World) (prefix e : string)
           (sentinel : A) : Prop :=
  exists w', op w = (Returned sentinel, w')
             /\ shown w' = shown w ++ [(Error, (prefix ++ e)%string)].

(** A computation that shows nothing, whatever it returns. *)
Definition silent {A : Type} (m : M A) : Prop :=
  forall w r w', m w = (r, w') -> shown w' = shown w.

(** [if u not in links: links.append(u)] as a function of the list. *)
Definition add_new (links : list string) (u : string) : list string :=
  if negb (Py.contains u links) then links ++ [u] else links.

(* ================================================================== *)
(** ** Invariants of the table *)

Module Keys.

(** The identity column: the rows carry increasing keys in insertion
    order, all below the next value to hand out. *)
Fixpoint increasing_below (bound : Z) (l : list Sql.row) : Prop :=
  match l with
  | [] => True
  | r :: rest =>
      Sql.r_id r < bound
      /\ Forall (fun r' => Sql.r_id r < Sql.r_id r') rest
      /\ increasing_below bound rest
  end.

Definition well_keyed (t : Sql.table) : Prop :=
  increasing_below (Sql.next_identity t) (Sql.rows t).

End Keys.

(* ================================================================== *)
(** ** A laboratory environment

    A small site served from a table, used to run the script on concrete
    inputs.  Its answers for [urllib.parse] agree with the library on
    absolute [http]/[https] addresses without dot segments, on links that
    start with one slash and on the empty link; it is not meant to be used
    on other links. *)

Module Lab.

Definition is_delim (c : ascii) : bool :=
  Ascii.eqb c "/" || Ascii.eqb c "?" || Ascii.eqb c "#".

(** The text after [scheme://], when the address starts that way. *)
Fixpoint after_scheme (s : string) : option string :=
  match s with
  | String c rest =>
      if Ascii.eqb c ":" then
        match rest with
        | String c1 (String c2 rest2) =>
            if Ascii.eqb c1 "/" && Ascii.eqb c2 "/" then Some rest2 else None
        | _ => None
        end
      else if is_delim c then None
      else after_scheme rest
  | EmptyString => None
  end.

Fixpoint until_delim (s : string) : string :=
  match s with
  | String c rest => if is_delim c then EmptyString else String c (until_delim rest)
  | EmptyString => EmptyString
  end.

Definition netloc_of (u : string) : string :=
  match after_scheme u with
  | Some rest => until_delim rest
  | None => EmptyString
  end.

(** [scheme://netloc] of an absolute address. *)
Fixpoint origin_from (s : string) : string :=
  match s with
  | String c rest =>
      if Ascii.eqb c ":" then
        match rest with
        | String c1 (String c2 rest2) =>
            String c (String c1 (String c2 (until_delim rest2)))
        | _ => String c EmptyString
        end
      else String c (origin_from rest)
  | EmptyString => EmptyString
  end.

Definition join (base href : string) : string :=
  match href with
  | EmptyString => base
  | String c _ =>
      if Ascii.eqb c "/" then (origin_from base ++ href)%string
      else href
  end.

(** One page of the site: address, status, body and the document the
    parser makes of the body. *)
Record page : Type := mkSitePage {
  p_url : string;
  p_status : Z;
  p_body : string;
  p_soup : Html.soup
}.

Fixpoint serve (site : list page) (url : string) : result Response :=
  match site with
  | [] => Raised "ConnectionError: host not found"
  | p :: rest =>
      if String.eqb (p_url p) url then Returned (mkResponse (p_status p) (p_body p))
      else serve rest url
  end.

(** A body that is not in the table is read as plain text. *)
Fixpoint parse (site : list page) (body : string) : Html.soup :=
  match site with
  | [] => [Html.Text body]
  | p :: rest => if String.eqb (p_body p) body then p_soup p else parse rest body
  end.

Definition env (site : list page) (clock : nat -> Z)
           (faults : nat -> option string) (coll : ascii -> ascii) : Env :=
  {| http := fun _ rq => serve site (req_url rq);
     html_parser := fun body => Returned (parse site body);
     urljoin := fun base href => Returned (join base href);
     netloc := fun u => Returned (netloc_of u);
     hostname := fun n => n;
     db_fault := faults;
     getdate := clock;
     collation := coll;
     run_other := fun _ _ s => (Some "Incorrect syntax.", s);
     agent := fun _ _ _ s => (Raised "Invalid API Key", s) |}.

Definition never : nat -> option string := fun _ => None.

(** A clock that advances by one second (300 ticks of [DATETIME]) a
    call. *)
Definition steady (n : nat) : Z := 1000000 + 300 * Z.of_nat n.

(** A clock that is put back every four calls, as the local time of the
    server is when the clocks change. *)
Definition put_back (n : nat) : Z := 1000000 + 300 * Z.of_nat (n mod 4).

Definition home : string := "https://example.com/".

Definition a (href : string) (label : string) : Html.node :=
  Html.Tag "a" [("href", href)] [Html.Text label].

(** The home page: a title, a script, a link to itself, two links to the
    site (one of them twice) and one link elsewhere. *)
Definition home_page : page :=
  {| p_url := home;
     p_status := 200;
     p_body := "<html>home</html>";
     p_soup :=
       [Html.Tag "html" []
          [Html.Tag "head" []
             [Html.Tag "title" [] [Html.Text " Example  "];
              Html.Tag "script" [] [Html.Text "var x = 1;"]];
           Html.Tag "body" []
             [Html.Text "Welcome   to the  site";
              a "/" "Home";
              a "/about" "About";
              a "https://other.org/x" "Elsewhere";
              a "https://example.com/about" "About again";
              a "/news" "News"]]] |}.

Definition gone_page : page :=
  {| p_url := "https://example.com/gone";
     p_status := 404;
     p_body := "not found";
     p_soup := [Html.Text "not found"] |}.

Definition site : list page := [home_page; gone_page].

Definition lab : Env := env site steady never Sql.binary_collation.

(** The same site with the clock that is put back. *)
Definition lab_put_back : Env := env site put_back never Sql.binary_collation.

Definition world (t : option Sql.table) : World :=
  {| store := t; shown := []; sent := []; ticks := 0 |}.

Definition row_of (i : Z) (u : string) : Sql.row :=
  Sql.mkRow i u "t" "c" (steady 0).

Definition evil : string := "https://example.com.evil.net/x".

Definition three_rows : Sql.table :=
  {| Sql.rows := [row_of 1 "https://example.com/a"; row_of 2 evil;
                  row_of 3 "https://other.org/"];
     Sql.next_identity := 4 |}.

End Lab.

(* ================================================================== *)
(** ** The rest of [main] *)

(** [str(n)] of an [int], as an f-string prints it. *)
Definition str_of_Z (n : Z) : string := NilZero.string_of_int (Z.to_int n).

(** [url.startswith(('http://', 'https://'))] *)
Definition has_web_scheme (url : string) : bool :=
  String.prefix "http://" url || String.prefix "https://" url.

(** What [st.session_state] holds between two runs of [main]; [None] is a
    key that is not there. *)
Record Session : Type := mkSession {
  db_initialized : option bool;
  chat_history : option (list (string * string))
}.

Definition fresh_session : Session :=
  {| db_initialized := None; chat_history := None |}.

Section Main.

Variable E : Env.

(** [if 'db_initialized' not in st.session_state:
       st.session_state.db_initialized = create_database_table()] *)
Definition main_init (s : Session) : M Session :=
  match db_initialized s with
  | None =>
      ok <- create_database_table E ;;
      ret {| db_initialized := Some ok; chat_history := chat_history s |}
  | Some _ => ret s
  end.

(** [if scrape_button and url:] up to the summary.  The progress bar, the
    status line, the pause between two pages, the three metrics and the
    pictographs of the messages are left out. *)
Definition main_scrape (scrape_button : bool) (url : string) (num_pages : Z) : M unit :=
  if scrape_button && Py.truthy url then
    if negb (has_web_scheme url) then
      st_error "Please enter a valid URL starting with http:// or https://"
    else
      st_info ("Starting to scrape " ++ str_of_Z num_pages
               ++ " pages from: " ++ url)%string ;;
      links <- get_page_links E url num_pages ;;
      match links with
      | [] => st_error "Could not find any pages to scrape."
      | _ :: _ =>
          let found := str_of_Z (Z.of_nat (List.length links)) in
          st_success ("Found " ++ found ++ " pages to scrape")%string ;;
          scraped_count <- main_scrape_loop E links 0 ;;
          st_success ("Successfully scraped " ++ str_of_Z scraped_count
                      ++ " out of " ++ found ++ " pages!")%string
      end
  else ret tt.

(** The history as the assistant tab finds it: the key is set to the empty
    list when it is not there. *)
Definition history_of (s : Session) : list (string * string) :=
  match chat_history s with
  | Some h => h
  | None => []
  end.

Definition with_history (h : list (string * string)) (s : Session) : Session :=
  {| db_initialized := db_initialized s; chat_history := Some h |}.

(** The assistant tab, [with tab2:], without what it draws.  The result is
    the session the next run starts from; [st.rerun()] ends the run in the
    two places where the script calls it. *)
Definition main_assistant (user_api_key user_question : string)
           (ask_button clear_chat_button : bool) (s : Session) : M Session :=
  if Py.truthy user_api_key then
    let h := history_of s in
    if clear_chat_button then ret (with_history [] s)
    else if ask_button && Py.truthy user_question then
      try_except
        (response <- agent_sql_tool E user_question user_api_key ;;
         match response with
         | Some answer =>
             if Py.truthy answer
             then ret (with_history (h ++ [(user_question, answer)]) s)
             else st_error "Failed to get response from AI agent." ;;
                  ret (with_history h s)
         | None =>
             st_error "Failed to get response from AI agent." ;;
             ret (with_history h s)
         end)
        (fun e => st_error ("Error: " ++ e)%string ;; ret (with_history h s))
    else ret (with_history h s)
  else ret s.

End Main.

(* ================================================================== *)
(** ** Shapes of text *)

Module Shape.

(** No character at which [splitlines] would cut. *)
Fixpoint no_break (s : string) : bool :=
  match s with
  | EmptyString => true
  | String c rest => negb (Py.is_linebreak c) && no_break rest
  end.

(** No two spaces side by side. *)
Fixpoint no_double_blank (s : string) : bool :=
  match s with
  | EmptyString => true
  | String c rest =>
      match rest with
      | EmptyString => true
      | String c2 _ => negb (Py.is_blank c && Py.is_blank c2) && no_double_blank rest
      end
  end.

(** The text does not start with white space. *)
Definition starts_clean (s : string) : bool :=
  match s with
  | EmptyString => true
  | String c _ => negb (Py.is_space c)
  end.

(** The text does not end with white space. *)
Fixpoint ends_clean (s : string) : bool :=
  match s with
  | EmptyString => true
  | String c rest =>
      match rest with
      | EmptyString => negb (Py.is_space c)
      | String _ _ => ends_clean rest
      end
  end.

(** One line of words: no line break, no two spaces side by side, no white
    space at either end. *)
Definition tidy (s : string) : bool :=
  no_break s && no_double_blank s && starts_clean s && ends_clean s.

(** Is the first, or the last, character a space?  (No for the empty
    text.) *)
Definition head_blank (s : string) : bool :=
  match s with
  | EmptyString => false
  | String c _ => Py.is_blank c
  end.

Fixpoint last_blank (s : string) : bool :=
  match s with
  | EmptyString => false
  | String c rest =>
      match rest with
      | EmptyString => Py.is_blank c
      | String _ _ => last_blank rest
      end
  end.

(** What [clean_text] joins: a word group that is not empty. *)
Definition chunk (s : string) : bool := Py.truthy s && tidy s.

End Shape.

(** A computation that sends no request, whatever it returns. *)
Definition sends_nothing {A : Type} (m : M A) : Prop :=
  forall w r w', m w = (r, w') -> sent w' = sent w.

(** Rows in the order [ORDER BY scraped_at DESC] asks for. *)
Definition newest_first (a b : Sql.row) : Prop :=
  Sql.r_scraped_at b <= Sql.r_scraped_at a.

(** The rows a run of the loop may add for the addresses [links]: each is
    the row of one of them, with a content of at most 5000 characters. *)
Definition scraped_from (links : list string) (r : Sql.row) : Prop :=
  In (Sql.r_url r) links /\ (String.length (Sql.r_content r) <= 5000)%nat.

(** A text with no quote in it. *)
Fixpoint quote_free (s : string) : bool :=
  match s with
  | EmptyString => true
  | String c rest => negb (Sql.is_quote c) && quote_free rest
  end.

(** The request goes out as the script sends them, to the address the user
    gave or to an address with the same netloc. *)
Definition stays_on_site (E : Env) (url : string) (rq : Request) : Prop :=
  req_method rq = "GET"
  /\ req_timeout rq = Some 10
  /\ has_web_scheme url = true
  /\ (req_url rq = url
      \/ exists n, netloc E (req_url rq) = Returned n /\ netloc E url = Returned n).

(** The laboratory with an agent that answers. *)
Definition lab_answering (answer : string) : Env :=
  {| http := http Lab.lab;
     html_parser := html_parser Lab.lab;
     urljoin := urljoin Lab.lab;
     netloc := netloc Lab.lab;
     hostname := hostname Lab.lab;
     db_fault := db_fault Lab.lab;
     getdate := getdate Lab.lab;
     collation := collation Lab.lab;
     run_other := run_other Lab.lab;
     agent := fun _ _ _ s => (Returned answer, s) |}.

(** The laboratory with a server that cannot be reached. *)
Definition lab_offline : Env :=
  Lab.env Lab.site Lab.steady (fun _ => Some "Login timeout expired")
          Sql.binary_collation.

(** The test of line 66 for a link of the same site: the netloc of the
    absolute form, that is the host as it is written with any userinfo and
    port, is the netloc of the seed, character for character. *)
Definition same_netloc (E : Env) (base_url full : string) : bool :=
  match netloc E full, netloc E base_url with
  | Returned a, Returned b => String.eqb a b
  | _, _ => false
  end.

(** The distinct addresses of the page, the seed's own apart, that have
    the netloc of the seed. *)
Definition netloc_links (E : Env) (base_url : string) (hrefs : list string)
  : list string :=
  nodup string_dec
        (filter (fun u => same_netloc E base_url u && negb (String.eqb u base_url))
                (resolved E base_url hrefs)).

(** A link of the same domain as the glossary has it: the host of the
    absolute form is the host of the seed. *)
Definition same_host (E : Env) (base_url full : string) : bool :=
  match url_host E full, url_host E base_url with
  | Some a, Some b => String.eqb a b
  | _, _ => false
  end.

(** The distinct addresses of the page that have the host of the seed. *)
Definition host_links (E : Env) (base_url : string) (hrefs : list string)
  : list string :=
  nodup string_dec (filter (same_host E base_url) (resolved E base_url hrefs)).

(** The host of a netloc that holds no userinfo and no bracket, as
    [urlparse(url).hostname] gives it: the text before the port, in lower
    case. *)
Definition lower_char (c : ascii) : ascii :=
  let n := nat_of_ascii c in
  if Nat.leb 65 n && Nat.leb n 90 then ascii_of_nat (n + 32) else c.

Fixpoint host_of_netloc (n : string) : string :=
  match n with
  | EmptyString => EmptyString
  | String c rest =>
      if Ascii.eqb c ":" then EmptyString
      else String (lower_char c) (host_of_netloc rest)
  end.

(** A home page whose one link names the seed's host with its port. *)
Definition port_page : Lab.page :=
  {| Lab.p_url := Lab.home;
     Lab.p_status := 200;
     Lab.p_body := "<html>port</html>";
     Lab.p_soup :=
       [Html.Tag "html" []
          [Html.Tag "body" [] [Lab.a "https://example.com:443/a" "Same host"]]] |}.

(** The laboratory serving that page, with hosts read off the netloc. *)
Definition lab_ports : Env :=
  {| http := fun _ rq => Lab.serve [port_page] (req_url rq);
     html_parser := fun body => Returned (Lab.parse [port_page] body);
     urljoin := urljoin Lab.lab;
     netloc := netloc Lab.lab;
     hostname := host_of_netloc;
     db_fault := db_fault Lab.lab;
     getdate := getdate Lab.lab;
     collation := collation Lab.lab;
     run_other := run_other Lab.lab;
     agent := agent Lab.lab |}.

(** The names [scrape_page] removes from the document. *)
Definition removed_tags : list string := ["script"; "style"].

(** The test of [find_all] for a tag with one of the names. *)
Definition named (names : list string) (name : string)
           (_ : list (string * string)) : bool :=
  Py.contains name names.

(* ================================================================== *)
(** * Properties *)

(** ** Strings and slices *)

Lemma str_take_length (n : nat) (s : string) :
  (String.length (Py.str_take n s) <= n)%nat.
Proof.
  revert s; induction n as [|n IH]; intros s; simpl.
  - lia.
  - destruct s as [|c rest]; simpl; [lia|].
    specialize (IH rest); lia.
Qed.

Lemma slice_stop_bound (n : Z) (len : nat) :
  0 <= n -> (Py.slice_stop n len <= Z.to_nat n)%nat.
Proof.
  intros Hn; unfold Py.slice_stop.
  destruct (n <? 0) eqn:Hneg; [apply Z.ltb_lt in Hneg; lia|].
  apply Nat.le_min_l.
Qed.

Lemma str_slice_to_length (n : Z) (s : string) :
  0 <= n -> Z.of_nat (String.length (Py.str_slice_to n s)) <= n.
Proof.
  intros Hn; unfold Py.str_slice_to.
  pose proof (str_take_length (Py.slice_stop n (String.length s)) s).
  pose proof (slice_stop_bound n (String.length s) Hn).
  lia.
Qed.

Lemma slice_to_firstn {A : Type} (n : Z) (l : list A) :
  0 <= n -> Py.slice_to n l = firstn (Z.to_nat n) l.
Proof.
  intros Hn; unfold Py.slice_to, Py.slice_stop.
  destruct (n <? 0) eqn:Hneg; [apply Z.ltb_lt in Hneg; lia|].
  destruct (Nat.le_ge_cases (Z.to_nat n) (List.length l)) as [Hle|Hge].
  - now rewrite Nat.min_l.
  - rewrite Nat.min_r by assumption.
    now rewrite !firstn_all2 by lia.
Qed.

Section Fetching.

Variable E : Env.

(** *** [scrape_page] *)

Lemma scrape_page_cases (url : string) (w : World) :
  (exists d, scrape_page E url w = (Returned (Some d), requested (page_request url) w)
             /\ d_url d = url
             /\ Z.of_nat (String.length (d_content d)) <= 5000)
  \/ (exists e, scrape_page E url w =
                (Returned None,
                 reported ("Error scraping " ++ url ++ ": " ++ e)%string
                          (requested (page_request url) w))).
Proof.
  unfold scrape_page, try_except, bind, requests_get, raise_for_status.
  fold (page_request url).
  destruct (http E (ticks w) (page_request url)) as [r|e] eqn:Hget.
  - destruct ((400 <=? status_code r) && (status_code r <? 600)) eqn:Hst.
    + right; eexists; reflexivity.
    + unfold ret, lift.
      destruct (html_parser E (resp_content r)) as [soup|e]; simpl.
      * left; eexists; split; [reflexivity|]; split; [reflexivity|].
        simpl; apply str_slice_to_length; lia.
      * right; eexists; reflexivity.
  - right; eexists; reflexivity.
Qed.

Lemma scrape_page_fetch_fails (url : string) (w : World) :
  fetch_fails E (page_request url) w ->
  exists e, scrape_page E url w =
            (Returned None,
             reported ("Error scraping " ++ url ++ ": " ++ e)%string
                      (requested (page_request url) w)).
Proof.
  unfold scrape_page, try_except, bind, requests_get, raise_for_status.
  fold (page_request url).
  intros [[e He]|[r [Hr Hst]]].
  - rewrite He; eexists; reflexivity.
  - rewrite Hr; unfold is_http_error in Hst; rewrite Hst.
    eexists; reflexivity.
Qed.

(** *** [get_page_links] *)

Lemma get_page_links_unfold (base_url : string) (max_pages : Z) (w : World) :
  get_page_links E base_url max_pages w =
  let w1 := requested (seed_request base_url) w in
  let failed e :=
    (Returned [base_url],
     reported ("Error getting page links: " ++ e)%string w1) in
  match http E (ticks w) (seed_request base_url) with
  | Raised e => failed e
  | Returned r =>
      if is_http_error r
      then failed ("HTTP Error for url: " ++ base_url)%string
      else match html_parser E (resp_content r) with
           | Raised e => failed e
           | Returned soup =>
               match collect_links E base_url max_pages
                                   (Html.anchor_hrefs soup) [base_url] with
               | Raised e => failed e
               | Returned links => (Returned (Py.slice_to max_pages links), w1)
               end
           end
  end.
Proof.
  unfold get_page_links, try_except, bind, requests_get, raise_for_status,
    is_http_error.
  fold (seed_request base_url).
  destruct (http E (ticks w) (seed_request base_url)) as [r|e]; [|reflexivity].
  destruct ((400 <=? status_code r) && (status_code r <? 600)); [reflexivity|].
  unfold ret, lift.
  destruct (html_parser E (resp_content r)) as [soup|e]; [|reflexivity].
  destruct (collect_links E base_url max_pages (Html.anchor_hrefs soup) [base_url]);
    reflexivity.
Qed.

Lemma get_page_links_fetch_fails (base_url : string) (max_pages : Z) (w : World) :
  fetch_fails E (seed_request base_url) w ->
  exists e, get_page_links E base_url max_pages w =
            (Returned [base_url],
             reported ("Error getting page links: " ++ e)%string
                      (requested (seed_request base_url) w)).
Proof.
  rewrite get_page_links_unfold; cbv zeta.
  intros [[e He]|[r [Hr Hst]]].
  - rewrite He; eexists; reflexivity.
  - rewrite Hr, Hst; eexists; reflexivity.
Qed.

End Fetching.

(** ** Functions that never raise *)

Lemma silent_ret {A : Type} (a : A) : silent (ret a).
Proof. intros w r w' H; inversion H; reflexivity. Qed.

Lemma silent_raise {A : Type} (e : string) : silent (@raise A e).
Proof. intros w r w' H; inversion H; reflexivity. Qed.

Lemma silent_lift {A : Type} (x : result A) : silent (lift x).
Proof. intros w r w' H; inversion H; reflexivity. Qed.

Lemma silent_bind {A B : Type} (m : M A) (k : A -> M B) :
  silent m -> (forall a, silent (k a)) -> silent (bind m k).
Proof.
  intros Hm Hk w r w' H; unfold bind in H.
  destruct (m w) as [[a|e] w1] eqn:Hmw.
  - rewrite (Hk a _ _ _ H); exact (Hm _ _ _ Hmw).
  - inversion H; subst; exact (Hm _ _ _ Hmw).
Qed.

Lemma append_assoc (a b c : string) : ((a ++ b) ++ c = a ++ b ++ c)%string.
Proof. induction a as [|x a IH]; simpl; [reflexivity|now rewrite IH]. Qed.

Lemma guarded_try {A : Type} (body : M A) (say : string -> string)
      (prefix : string) (sentinel : A) :
  (forall e, say e = (prefix ++ e)%string) ->
  silent body ->
  guarded (try_except body (fun e => st_error (say e) ;; ret sentinel))
          prefix sentinel.
Proof.
  intros Hsay Hs w; unfold try_except.
  destruct (body w) as [[a|e] w1] eqn:Hb.
  - exists a, w1; split; [reflexivity|left; exact (Hs _ _ _ Hb)].
  - eexists; eexists; split; [reflexivity|right].
    exists e; simpl; split; [|reflexivity].
    now rewrite (Hs _ _ _ Hb), Hsay.
Qed.

Section Silence.

Variable E : Env.

Ltac one_call :=
  let H := fresh in
  intros ? ? ? H; cbv beta delta
    [requests_get pyodbc_connect execute_create execute_insert execute_text
     conn_commit read_sql agent_run raise_for_status tick set_store ret raise] in H;
  repeat match type of H with
         | context [match ?x with _ => _ end] => destruct x
         | context [if ?x then _ else _] => destruct x
         end;
  inversion H; reflexivity.

Lemma silent_requests_get url headers timeout :
  silent (requests_get E url headers timeout).
Proof. one_call. Qed.

Lemma silent_raise_for_status url r : silent (raise_for_status url r).
Proof. one_call. Qed.

Lemma silent_connect : silent (pyodbc_connect E).
Proof. one_call. Qed.

Lemma silent_execute_create : silent (execute_create E).
Proof. one_call. Qed.

Lemma silent_execute_insert d : silent (execute_insert E d).
Proof. one_call. Qed.

Lemma silent_execute_text text : silent (execute_text E text).
Proof. one_call. Qed.

Lemma silent_commit pending : silent (conn_commit E pending).
Proof. one_call. Qed.

Lemma silent_read_sql : silent (read_sql E).
Proof. one_call. Qed.

Lemma silent_agent_run text key : silent (agent_run E text key).
Proof. one_call. Qed.

Ltac quiet :=
  repeat first
    [ apply silent_ret | apply silent_raise | apply silent_lift
    | apply silent_requests_get | apply silent_raise_for_status
    | apply silent_connect | apply silent_execute_create
    | apply silent_execute_insert | apply silent_execute_text
    | apply silent_commit | apply silent_read_sql | apply silent_agent_run
    | apply silent_bind; [|intro] ].

Lemma create_database_table_guarded :
  guarded (create_database_table E) "Database table creation error: " false.
Proof. apply guarded_try; [reflexivity|quiet]. Qed.

Lemma get_page_links_guarded base_url max_pages :
  guarded (get_page_links E base_url max_pages)
          "Error getting page links: " [base_url].
Proof. apply guarded_try; [reflexivity|quiet]. Qed.

Lemma scrape_page_guarded url :
  guarded (scrape_page E url) ("Error scraping " ++ url ++ ": ") None.
Proof.
  apply guarded_try; [|quiet].
  intros e; simpl; now rewrite append_assoc.
Qed.

Lemma save_to_database_guarded data :
  guarded (save_to_database E data) "Database save error: " false.
Proof. apply guarded_try; [reflexivity|quiet]. Qed.

Lemma get_scraped_data_guarded :
  guarded (get_scraped_data E) "Database retrieval error: " [].
Proof. apply guarded_try; [reflexivity|quiet]. Qed.

Lemma clear_database_guarded u :
  guarded (clear_database E u) "Database clear error: " false.
Proof. apply guarded_try; [reflexivity|quiet]. Qed.

Lemma agent_sql_tool_guarded user_text api_key :
  guarded (agent_sql_tool E user_text api_key) "Agent error: " None.
Proof. apply guarded_try; [reflexivity|quiet]. Qed.

End Silence.

(** ** Statement texts and patterns *)

Lemma plain_cons (c : ascii) (s : string) :
  Sql.plain (String c s) = true ->
  Sql.is_quote c = false /\ Sql.is_percent c = false
  /\ Sql.is_underscore c = false /\ Sql.is_lbracket c = false
  /\ Sql.plain s = true.
Proof.
  simpl; unfold Sql.plain_char; intros H.
  apply andb_true_iff in H; destruct H as [Hc Hs].
  apply negb_true_iff in Hc.
  repeat (apply orb_false_iff in Hc; destruct Hc as [Hc ?]).
  repeat split; assumption.
Qed.

(** A literal with no quote inside is read back as it was written. *)
Lemma lex_literal_plain (p : string) :
  Sql.plain p = true ->
  Sql.lex_literal (p ++ "%'")%string = Some ((p ++ "%")%string, EmptyString).
Proof.
  intros Hp; induction p as [|c p IH].
  - reflexivity.
  - apply plain_cons in Hp; destruct Hp as (Hq & _ & _ & _ & Hp).
    cbn [append Sql.lex_literal]; rewrite Hq, (IH Hp); reflexivity.
Qed.

Lemma strip_prefix_append (p s : string) :
  Sql.strip_prefix p (p ++ s)%string = Some s.
Proof.
  induction p as [|c p IH]; simpl.
  - now destruct s.
  - now rewrite Ascii.eqb_refl.
Qed.

Lemma classify_clear_statement (p : string) :
  Sql.plain p = true ->
  Sql.classify (clear_statement p) = Sql.DeleteUrlLike (p ++ "%")%string.
Proof.
  intros Hp; unfold Sql.classify, clear_statement.
  change ("DELETE FROM scraped_data WHERE url LIKE '" ++ p ++ "%'")%string
    with (Sql.delete_like_head ++ (p ++ "%'"))%string.
  rewrite strip_prefix_append, (lex_literal_plain p Hp); reflexivity.
Qed.

Section Patterns.

Variable collate : ascii -> ascii.

Lemma like_items_many (s : string) : Sql.like_items collate [Sql.PMany] s = true.
Proof. induction s as [|c s IH]; [reflexivity|exact IH]. Qed.

(** A plain text followed by [%] matches the strings that start with the
    text. *)
Lemma like_plain_prefix (p s : string) :
  Sql.plain p = true ->
  Sql.like collate s (p ++ "%")%string = Sql.starts_with collate p s.
Proof.
  unfold Sql.like; revert s; induction p as [|c p IH]; intros s Hp.
  - apply like_items_many.
  - apply plain_cons in Hp; destruct Hp as (_ & Hpc & Hu & Hb & Hp).
    cbn [append Sql.parse_pattern]; rewrite Hpc, Hu, Hb.
    destruct s as [|d s]; [reflexivity|].
    cbn [Sql.like_items Sql.starts_with Sql.item_accepts].
    now rewrite (IH s Hp).
Qed.

Lemma like_percent (s : string) : Sql.like collate s "%" = true.
Proof. apply like_items_many. Qed.

End Patterns.

Lemma starts_with_binary (p s : string) :
  Sql.starts_with Sql.binary_collation p s = String.prefix p s.
Proof.
  revert s; induction p as [|a p IH]; intros [|b s]; simpl; try reflexivity.
  unfold Sql.same_char, Sql.binary_collation; rewrite IH.
  destruct (Ascii.eqb a b) eqn:Hab.
  - apply Ascii.eqb_eq in Hab; subst.
    destruct (ascii_dec b b); [reflexivity|congruence].
  - apply Ascii.eqb_neq in Hab.
    destruct (ascii_dec a b); [congruence|reflexivity].
Qed.

(** ** The database functions when the server answers *)

Section Database.

Variable E : Env.

Ltac answers H :=
  destruct H as (?F0 & ?F1 & ?F2).

Lemma save_to_database_ok (d : page_data) (w : World) (t : Sql.table) :
  db_answers E w -> store w = Some t -> Sql.next_identity t <= Sql.INT_MAX ->
  save_to_database E d w =
  (Returned true,
   committed (Some (Sql.insert_row (d_url d) (d_title d) (d_content d)
                                   (getdate E (S (ticks w))) t)) w).
Proof.
  intros H Ht Hid; answers H.
  unfold save_to_database, try_except, bind, pyodbc_connect, execute_insert,
    conn_commit, ret, tick, set_store, committed; simpl.
  rewrite F0, F1, F2, Ht.
  destruct (Sql.INT_MAX <? Sql.next_identity t) eqn:Hover;
    [apply Z.ltb_lt in Hover; lia|reflexivity].
Qed.

Lemma clear_database_like (u pattern : string) (w : World) (t : Sql.table) :
  db_answers E w -> store w = Some t ->
  Sql.classify (clear_statement u) = Sql.DeleteUrlLike pattern ->
  clear_database E u w =
  (Returned true,
   committed (Some (Sql.delete_where_url_like (collation E) pattern t)) w).
Proof.
  intros H Ht Hc; answers H.
  unfold clear_database, try_except, bind, pyodbc_connect, execute_text,
    conn_commit, ret, tick, set_store, committed; simpl.
  rewrite F0, F1, Hc, Ht; simpl; rewrite F2; reflexivity.
Qed.

Lemma create_database_table_ok (w : World) :
  db_answers E w ->
  create_database_table E w =
  (Returned true,
   committed (match store w with
              | None => Some Sql.empty_table
              | Some t => Some t
              end) w).
Proof.
  intros H; answers H.
  unfold create_database_table, try_except, bind, pyodbc_connect,
    execute_create, conn_commit, ret, tick, set_store, committed; simpl.
  rewrite F0, F1, F2; reflexivity.
Qed.

(** *** A failure of the connection *)

Ltac faulty H :=
  simpl in H;
  repeat match type of H with
         | context [db_fault E ?t] =>
             let F := fresh "F" in
             destruct (db_fault E t) eqn:F; try discriminate
         end.

Ltac run :=
  cbv beta delta
    [create_database_table save_to_database clear_database get_scraped_data
     try_except bind pyodbc_connect execute_create execute_insert execute_text
     conn_commit read_sql ret st_error show tick set_store gives_up];
  simpl.

Lemma create_database_table_fault (w : World) (e : string) :
  first_fault E (ticks w) 3 = Some e ->
  gives_up (create_database_table E) w "Database table creation error: " e false.
Proof.
  intros H; faulty H; inversion H; subst; run;
    repeat match goal with F : db_fault E _ = _ |- _ => rewrite F; clear F end;
    simpl; eexists; split; reflexivity.
Qed.

(** A failure at the connection, the statement or the commit of
    [save_to_database]; the message is the one of the first call that
    raises. *)
Lemma save_to_database_fault (d : page_data) (w : World) (e : string) :
  first_fault E (ticks w) 3 = Some e ->
  exists e', gives_up (save_to_database E d) w "Database save error: " e' false.
Proof.
  intros H; faulty H; run;
    repeat match goal with F : db_fault E _ = _ |- _ => rewrite F end;
    simpl.
  - eexists; eexists; split; reflexivity.
  - eexists; eexists; split; reflexivity.
  - destruct (store w) as [t|]; simpl.
    + destruct (Sql.INT_MAX <? Sql.next_identity t); simpl; rewrite ?F1;
        eexists; eexists; split; reflexivity.
    + eexists; eexists; split; reflexivity.
Qed.

Lemma get_scraped_data_fault (w : World) (e : string) :
  first_fault E (ticks w) 2 = Some e ->
  gives_up (get_scraped_data E) w "Database retrieval error: " e [].
Proof.
  intros H; faulty H; inversion H; subst; run;
    repeat match goal with F : db_fault E _ = _ |- _ => rewrite F; clear F end;
    simpl; eexists; split; reflexivity.
Qed.

Lemma clear_database_fault (u : string) (w : World) (e : string) :
  first_fault E (ticks w) 3 = Some e ->
  exists e', gives_up (clear_database E u) w "Database clear error: " e' false.
Proof.
  intros H; faulty H; run;
    repeat match goal with F : db_fault E _ = _ |- _ => rewrite F end;
    simpl.
  - eexists; eexists; split; reflexivity.
  - eexists; eexists; split; reflexivity.
  - destruct (Sql.classify (clear_statement u)); simpl.
    + destruct (store w); simpl; rewrite ?F1;
        eexists; eexists; split; reflexivity.
    + eexists; eexists; split; reflexivity.
    + destruct (run_other E (S (ticks w)) (clear_statement u) (store w))
        as [[e'|] after]; simpl; rewrite ?F1;
        eexists; eexists; split; reflexivity.
Qed.

Lemma agent_sql_tool_fault (user_text api_key : string) (w : World)
      (e : string) (after : option Sql.table) :
  agent E (ticks w) api_key user_text (store w) = (Raised e, after) ->
  gives_up (agent_sql_tool E user_text api_key) w "Agent error: " e None.
Proof.
  intros H; unfold gives_up, agent_sql_tool, try_except, bind, agent_run.
  rewrite H; simpl; eexists; split; reflexivity.
Qed.

End Database.

(** ** The link collector *)

Lemma contains_In (x : string) (l : list string) :
  Py.contains x l = true <-> In x l.
Proof.
  unfold Py.contains; rewrite existsb_exists; split.
  - intros [y [Hy Heq]]; apply String.eqb_eq in Heq; now subst.
  - intros H; exists x; split; [assumption|apply String.eqb_refl].
Qed.

Lemma contains_not_In (x : string) (l : list string) :
  Py.contains x l = false <-> ~ In x l.
Proof.
  rewrite <- contains_In; destruct (Py.contains x l); split; congruence.
Qed.

(** Appending the new addresses one by one gives the old list followed by
    the addresses it did not hold, each once. *)
Lemma fold_add_new (ys links : list string) :
  exists news,
    fold_left add_new ys links = links ++ news
    /\ NoDup news
    /\ forall x, In x news <-> In x ys /\ ~ In x links.
Proof.
  revert links; induction ys as [|y ys IH]; intros links.
  - exists []; simpl; rewrite app_nil_r; repeat split; try constructor;
      intros; tauto.
  - simpl; unfold add_new at 2.
    destruct (Py.contains y links) eqn:Hy; simpl.
    + apply contains_In in Hy.
      destruct (IH links) as (news & Heq & Hnd & Hin).
      exists news; split; [exact Heq|split; [exact Hnd|]].
      intros x; split.
      * intros Hx; apply Hin in Hx; tauto.
      * intros [[Heq'|Hys] Hl]; [subst; tauto|apply Hin; tauto].
    + apply contains_not_In in Hy.
      destruct (IH (links ++ [y])) as (news & Heq & Hnd & Hin).
      exists (y :: news); split; [|split].
      * rewrite Heq, <- app_assoc; reflexivity.
      * constructor; [|assumption].
        intros Hx; apply Hin in Hx; destruct Hx as [_ Hx].
        apply Hx, in_or_app; right; now left.
      * intros x; split.
        -- intros [Hx|Hx]; [subst; tauto|].
           apply Hin in Hx; destruct Hx as [Hys Hl]; split; [tauto|].
           intros Hc; apply Hl, in_or_app; now left.
        -- intros [[Hx|Hx] Hl]; [now left|].
           destruct (string_dec y x) as [Heq'|Hne]; [now left|right].
           apply Hin; split; [assumption|].
           intros Hc; apply in_app_or in Hc; destruct Hc as [Hc|[Hc|[]]]; tauto.
Qed.

Lemma firstn_prefix {A : Type} (m : nat) (l t : list A) :
  t = [] \/ (m <= List.length l)%nat -> firstn m l = firstn m (l ++ t).
Proof.
  intros [Ht|Hm].
  - subst; now rewrite app_nil_r.
  - rewrite firstn_app.
    replace (m - List.length l)%nat with 0%nat by lia.
    simpl; now rewrite app_nil_r.
Qed.

Lemma NoDup_firstn {A : Type} (m : nat) (l : list A) :
  NoDup l -> NoDup (firstn m l).
Proof.
  intros H; rewrite <- (firstn_skipn m l) in H.
  exact (NoDup_app_remove_r _ _ H).
Qed.

Lemma In_firstn {A : Type} (m : nat) (l : list A) (x : A) :
  In x (firstn m l) -> In x l.
Proof.
  intros H; rewrite <- (firstn_skipn m l); apply in_or_app; now left.
Qed.

Lemma In_slice_to {A : Type} (n : Z) (l : list A) (x : A) :
  In x (Py.slice_to n l) -> In x l.
Proof. apply In_firstn. Qed.

Section Collector.

Variable E : Env.
Variable base_url : string.
Variable max_pages : Z.

(** When every link parses, the loop returns a prefix of the list of all
    the new same-site addresses, and the whole of it unless the cap was
    reached. *)
Lemma collect_links_prefix (hrefs links : list string) :
  parses E base_url hrefs ->
  exists l' t,
    collect_links E base_url max_pages hrefs links = Returned l'
    /\ fold_left add_new
                 (filter (same_domain E base_url) (resolved E base_url hrefs))
                 links = l' ++ t
    /\ (t = [] \/ max_pages <= Z.of_nat (List.length l')).
Proof.
  intros [[nb Hnb] Hall]; revert links.
  induction hrefs as [|href rest IH]; intros links.
  - exists links, []; simpl; rewrite app_nil_r; auto.
  - destruct (Hall href (or_introl eq_refl)) as (u & n & Hu & Hn).
    assert (Hrest : forall h, In h rest ->
              exists u n, urljoin E base_url h = Returned u
                          /\ netloc E u = Returned n)
      by (intros h Hh; apply Hall; now right).
    specialize (IH Hrest).
    cbn [collect_links resolved flat_map]; rewrite Hu; cbn [rbind app filter].
    unfold same_domain at 1; rewrite Hn, Hnb; cbn [rbind].
    destruct (String.eqb n nb) eqn:Hsame.
    + cbn [fold_left]; fold (add_new links u).
      destruct (Z.of_nat (List.length (add_new links u)) >=? max_pages) eqn:Hcap.
      * destruct (fold_add_new
                    (filter (same_domain E base_url) (resolved E base_url rest))
                    (add_new links u)) as (news & Heq & _).
        exists (add_new links u), news; split; [reflexivity|split].
        -- exact Heq.
        -- right; apply Z.geb_le in Hcap; lia.
      * apply IH.
    + apply IH.
Qed.

(** Whatever the page holds, an address the loop adds is the absolute
    form of one of its links and has the netloc of the seed. *)
Lemma collect_links_sound (hrefs links l' : list string) :
  collect_links E base_url max_pages hrefs links = Returned l' ->
  forall u, In u l' ->
    In u links
    \/ exists href n,
         In href hrefs /\ urljoin E base_url href = Returned u
         /\ netloc E u = Returned n /\ netloc E base_url = Returned n.
Proof.
  revert links; induction hrefs as [|href rest IH]; intros links Hrun u Hu.
  - inversion Hrun; subst; now left.
  - cbn [collect_links] in Hrun.
    destruct (urljoin E base_url href) as [full|] eqn:Hfull; [|discriminate].
    cbn [rbind] in Hrun.
    destruct (netloc E full) as [n|] eqn:Hn; [|discriminate].
    cbn [rbind] in Hrun.
    destruct (netloc E base_url) as [nb|] eqn:Hnb; [|discriminate].
    cbn [rbind] in Hrun.
    assert (Hlater : forall links0,
               In u links0 \/
               (exists href0 n0, In href0 rest
                  /\ urljoin E base_url href0 = Returned u
                  /\ netloc E u = Returned n0 /\ Returned nb = Returned n0) ->
               (forall x, In x links0 -> In x links \/ x = full /\ n = nb) ->
               In u links \/
               (exists href0 n0, In href0 (href :: rest)
                  /\ urljoin E base_url href0 = Returned u
                  /\ netloc E u = Returned n0 /\ Returned nb = Returned n0)).
    { intros links0 [Hin|(h & n0 & Hh & Hj & Hn0 & Hb)] Hsub.
      - destruct (Hsub u Hin) as [Hl|[Heq Hnn]]; [now left|right].
        subst; exists href, nb; repeat split; auto; now left.
      - right; exists h, n0; repeat split; auto; now right. }
    destruct (String.eqb n nb) eqn:Hsame.
    + apply String.eqb_eq in Hsame.
      assert (Hsub : forall x,
                 In x (if negb (Py.contains full links)
                       then links ++ [full] else links) ->
                 In x links \/ x = full /\ n = nb).
      { intros x Hx; destruct (negb (Py.contains full links)); [|now left].
        apply in_app_or in Hx; destruct Hx as [Hx|[Hx|[]]]; [now left|].
        right; split; congruence. }
      destruct (Z.of_nat _ >=? max_pages) in Hrun.
      * inversion Hrun; subst l'.
        apply (Hlater _ (or_introl Hu) Hsub).
      * apply (Hlater _ (IH _ Hrun u Hu) Hsub).
    + apply (Hlater links (IH _ Hrun u Hu)); intros x Hx; now left.
Qed.

(** When no link of the page has the host of the seed, the loop leaves
    the list as it is, or raises. *)
Lemma collect_links_foreign (hrefs links : list string) :
  (forall href u, In href hrefs -> urljoin E base_url href = Returned u ->
                  url_host E u <> url_host E base_url) ->
  collect_links E base_url max_pages hrefs links = Returned links
  \/ exists e, collect_links E base_url max_pages hrefs links = Raised e.
Proof.
  induction hrefs as [|href rest IH]; intros Hforeign.
  - now left.
  - cbn [collect_links].
    destruct (urljoin E base_url href) as [full|e] eqn:Hfull;
      [|right; now exists e].
    cbn [rbind].
    destruct (netloc E full) as [n|e] eqn:Hn; [|right; now exists e].
    cbn [rbind].
    destruct (netloc E base_url) as [nb|e] eqn:Hnb; [|right; now exists e].
    cbn [rbind].
    destruct (String.eqb n nb) eqn:Hsame.
    + apply String.eqb_eq in Hsame; subst nb.
      exfalso; apply (Hforeign href full (or_introl eq_refl) Hfull).
      unfold url_host; now rewrite Hn, Hnb.
    + apply IH; intros h u Hh; apply Hforeign; now right.
Qed.

End Collector.

(** ** The identity column *)

Section Identity.

Lemma increasing_below_weaken (b b' : Z) (l : list Sql.row) :
  b <= b' -> Keys.increasing_below b l -> Keys.increasing_below b' l.
Proof.
  intros Hb; induction l as [|r l IH]; simpl; [trivial|].
  intros (Hr & Hall & Hl); repeat split; [lia|assumption|auto].
Qed.

Lemma increasing_below_bound (b : Z) (l : list Sql.row) :
  Keys.increasing_below b l -> Forall (fun r => Sql.r_id r < b) l.
Proof.
  induction l as [|r l IH]; simpl; [constructor|].
  intros (Hr & _ & Hl); constructor; auto.
Qed.

Lemma increasing_below_snoc (b : Z) (l : list Sql.row) (u t c : string) (now : Z) :
  Keys.increasing_below b l ->
  Keys.increasing_below (b + 1) (l ++ [Sql.mkRow b u t c now]).
Proof.
  induction l as [|r l IH]; simpl.
  - intros _; repeat split; [lia|constructor].
  - intros (Hr & Hall & Hl); repeat split; [lia| |auto].
    apply Forall_app; split; [assumption|].
    constructor; [simpl; lia|constructor].
Qed.

Lemma Forall_filter {A : Type} (P : A -> Prop) (f : A -> bool) (l : list A) :
  Forall P l -> Forall P (filter f l).
Proof.
  intros H; apply Forall_forall; intros x Hx.
  apply filter_In in Hx; destruct Hx as [Hx _].
  revert x Hx; now apply Forall_forall.
Qed.

Lemma increasing_below_filter (b : Z) (f : Sql.row -> bool) (l : list Sql.row) :
  Keys.increasing_below b l -> Keys.increasing_below b (filter f l).
Proof.
  induction l as [|r l IH]; simpl; [trivial|].
  intros (Hr & Hall & Hl); destruct (f r); simpl; auto.
  repeat split; auto using Forall_filter.
Qed.

(** Increasing keys are pairwise distinct. *)
Lemma increasing_below_NoDup (b : Z) (l : list Sql.row) :
  Keys.increasing_below b l -> NoDup (map Sql.r_id l).
Proof.
  induction l as [|r l IH]; simpl; [constructor|].
  intros (Hr & Hall & Hl); constructor; [|auto].
  intros Hin; apply in_map_iff in Hin; destruct Hin as (r' & Heq & Hr').
  rewrite Forall_forall in Hall; specialize (Hall r' Hr'); lia.
Qed.

Lemma well_keyed_empty : Keys.well_keyed Sql.empty_table.
Proof. exact I. Qed.

Lemma well_keyed_insert (u t c : string) (now : Z) (tb : Sql.table) :
  Keys.well_keyed tb -> Keys.well_keyed (Sql.insert_row u t c now tb).
Proof. apply increasing_below_snoc. Qed.

Lemma well_keyed_delete (collate : ascii -> ascii) (pattern : string)
      (tb : Sql.table) :
  Keys.well_keyed tb ->
  Keys.well_keyed (Sql.delete_where_url_like collate pattern tb).
Proof. apply increasing_below_filter. Qed.

(** A transaction that is not committed leaves a gap in the keys, not a
    repeated key. *)
Lemma well_keyed_rollback (u t c : string) (now : Z) (tb : Sql.table) :
  Keys.well_keyed tb ->
  match rollback (Some tb) (Some (Sql.insert_row u t c now tb)) with
  | Some tb' => Keys.well_keyed tb' /\ Sql.rows tb' = Sql.rows tb
  | None => False
  end.
Proof.
  intros H; simpl; split; [|reflexivity].
  unfold Keys.well_keyed; simpl.
  apply (increasing_below_weaken (Sql.next_identity tb)); [lia|exact H].
Qed.

End Identity.

Lemma filter_none {A : Type} (f : A -> bool) (l : list A) :
  (forall x, f x = false) -> filter f l = [].
Proof.
  intros H; induction l as [|x l IH]; simpl; [reflexivity|now rewrite H].
Qed.

Lemma starts_with_literal (collate : ascii -> ascii) (p s : string) :
  String.prefix p s = true -> Sql.starts_with collate p s = true.
Proof.
  revert s; induction p as [|a p IH]; intros [|b s]; simpl; try congruence.
  destruct (ascii_dec a b) as [Heq|]; [|discriminate].
  intros H; subst; unfold Sql.same_char; now rewrite Ascii.eqb_refl, IH.
Qed.

(** Under a collation that ignores case the statement also removes rows
    whose [url] differs from the text in the case of its letters. *)
Example like_ignores_case :
  Sql.like Sql.ci_collation "HTTPS://Example.COM/a" "https://example.com%" = true
  /\ Sql.like Sql.binary_collation "HTTPS://Example.COM/a" "https://example.com%" = false.
Proof. split; reflexivity. Qed.

(** The characters LIKE gives a meaning to are not taken literally. *)
Example like_wildcards :
  Sql.like Sql.binary_collation "https://other.org/" "_%" = true
  /\ Sql.like Sql.binary_collation "abc" "a[a-c]c%" = true
  /\ Sql.like Sql.binary_collation "abc" "a[^a-c]c%" = false.
Proof. repeat split; reflexivity. Qed.

(** ** The keys under every outcome of a store call *)

Section KeysKept.

Variable E : Env.

(** Whether [save_to_database] succeeds or gives up, a table with
    increasing keys is left with increasing keys, and no row that was
    there is lost or changed. *)
Lemma save_to_database_keeps_keys (d : page_data) (w : World) (t : Sql.table) :
  store w = Some t -> Keys.well_keyed t ->
  exists t' extra,
    store (snd (save_to_database E d w)) = Some t'
    /\ Keys.well_keyed t'
    /\ Sql.rows t' = Sql.rows t ++ extra
    /\ Sql.next_identity t <= Sql.next_identity t'.
Proof.
  intros Ht Hkeys.
  unfold save_to_database, try_except, bind, pyodbc_connect, execute_insert,
    conn_commit, ret, st_error, show, tick, set_store; simpl.
  destruct (db_fault E (ticks w)); simpl.
  { exists t, []; rewrite app_nil_r; repeat split; auto; lia. }
  rewrite Ht.
  destruct (db_fault E (S (ticks w))); simpl.
  { exists t, []; rewrite app_nil_r; repeat split; auto; lia. }
  destruct (Sql.INT_MAX <? Sql.next_identity t); simpl.
  { exists t, []; rewrite app_nil_r; repeat split; auto; lia. }
  destruct (db_fault E (S (S (ticks w)))); simpl.
  - eexists; exists []; rewrite app_nil_r; split; [reflexivity|].
    split; [|split; [reflexivity|simpl; lia]].
    unfold Keys.well_keyed; simpl.
    apply (increasing_below_weaken (Sql.next_identity t)); [lia|exact Hkeys].
  - eexists; eexists; split; [reflexivity|].
    split; [apply well_keyed_insert, Hkeys|split; [reflexivity|simpl; lia]].
Qed.

End KeysKept.

(* ================================================================== *)
(** * The claims *)

(** C1, as the script has it.  Clearing with a text [p] that holds no quote
    and none of the characters [%], [_] and [[] succeeds when the server
    answers and the table exists, and it removes exactly the rows whose
    [url] starts with [p] as the collation of the column compares
    characters; the other rows stay, in their order, and the identity
    counter is untouched.  A row whose [url] starts with [p] character for
    character is removed under every collation, and under a binary
    collation these are the only rows removed. *)
Theorem C1_clear_removes_rows_with_prefix
        (E : Env) (p : string) (w : World) (t : Sql.table) :
  db_answers E w -> store w = Some t -> Sql.plain p = true ->
  exists t',
    clear_database E p w = (Returned true, committed (Some t') w)
    /\ Sql.next_identity t' = Sql.next_identity t
    /\ Sql.rows t' =
       filter (fun r => negb (Sql.starts_with (collation E) p (Sql.r_url r)))
              (Sql.rows t)
    /\ (forall r, String.prefix p (Sql.r_url r) = true -> ~ In r (Sql.rows t'))
    /\ (collation E = Sql.binary_collation ->
        Sql.rows t' =
        filter (fun r => negb (String.prefix p (Sql.r_url r))) (Sql.rows t)).
Proof.
  intros Hdb Ht Hp.
  exists (Sql.delete_where_url_like (collation E) (p ++ "%")%string t).
  assert (Hrows : Sql.rows (Sql.delete_where_url_like (collation E) (p ++ "%")%string t)
                  = filter (fun r => negb (Sql.starts_with (collation E) p (Sql.r_url r)))
                           (Sql.rows t)).
  { simpl; apply filter_ext; intros r; now rewrite like_plain_prefix. }
  split; [|split; [reflexivity|split; [exact Hrows|split]]].
  - apply clear_database_like; auto using classify_clear_statement.
  - intros r Hpre Hin; rewrite Hrows in Hin.
    apply filter_In in Hin; destruct Hin as [_ Hkeep].
    now rewrite (starts_with_literal _ _ _ Hpre) in Hkeep.
  - intros Hbin; rewrite Hrows, Hbin.
    apply filter_ext; intros r; now rewrite starts_with_binary.
Qed.

(** C1 at a table of three rows, cleared with ["https://example.com"]. *)
Lemma C1_clear_removes_rows_with_prefix_witness :
  exists t',
    clear_database Lab.lab "https://example.com" (Lab.world (Some Lab.three_rows))
    = (Returned true, committed (Some t') (Lab.world (Some Lab.three_rows)))
    /\ Sql.rows t' = [Lab.row_of 3 "https://other.org/"].
Proof.
  destruct (C1_clear_removes_rows_with_prefix
              Lab.lab "https://example.com" (Lab.world (Some Lab.three_rows))
              Lab.three_rows)
    as (t' & Hrun & _ & Hrows & _).
  - repeat split.
  - reflexivity.
  - reflexivity.
  - exists t'; split; [exact Hrun|rewrite Hrows; reflexivity].
Defined.

(** C1 as the specification words it fails: clearing with the prefix
    ["https://example.com"] does delete the row whose [url] is
    ["https://example.com.evil.net/x"], which starts with that text. *)
Lemma C1_counterexample :
  exists w' t',
    clear_database Lab.lab "https://example.com" (Lab.world (Some Lab.three_rows))
    = (Returned true, w')
    /\ store w' = Some t'
    /\ In (Lab.row_of 2 Lab.evil) (Sql.rows Lab.three_rows)
    /\ ~ In (Lab.row_of 2 Lab.evil) (Sql.rows t').
Proof.
  eexists; eexists; split; [vm_compute; reflexivity|].
  split; [reflexivity|split].
  - right; left; reflexivity.
  - simpl; intros [H|[]]; discriminate H.
Qed.

(** C10.  With the empty text the statement reads [LIKE '%'], which every
    [url] matches: when the server answers and the table exists,
    [clear_database] leaves the table with no row, and the clear action
    of the page, run with an empty address field, does the same and
    reports success. *)
Theorem C10_empty_prefix_clears_everything (E : Env) (w : World) (t : Sql.table) :
  db_answers E w -> store w = Some t ->
  Sql.classify (clear_statement EmptyString) = Sql.DeleteUrlLike "%"
  /\ (forall u, Sql.like (collation E) u "%" = true)
  /\ clear_database E EmptyString w =
     (Returned true,
      committed (Some {| Sql.rows := []; Sql.next_identity := Sql.next_identity t |}) w)
  /\ main_clear E EmptyString w =
     (Returned tt,
      {| store := Some {| Sql.rows := []; Sql.next_identity := Sql.next_identity t |};
         shown := shown w ++ [(Success, "Database cleared successfully!")];
         sent := sent w;
         ticks := S (S (S (ticks w))) |}).
Proof.
  intros Hdb Ht.
  assert (Hclear : clear_database E EmptyString w =
                   (Returned true,
                    committed (Some {| Sql.rows := [];
                                       Sql.next_identity := Sql.next_identity t |}) w)).
  { rewrite (clear_database_like E EmptyString "%" w t Hdb Ht eq_refl).
    unfold Sql.delete_where_url_like.
    rewrite filter_none; [reflexivity|].
    intros r; now rewrite like_percent. }
  split; [reflexivity|split; [apply like_percent|split; [exact Hclear|]]].
  unfold main_clear, bind; rewrite Hclear; reflexivity.
Qed.

Lemma C10_empty_prefix_clears_everything_witness :
  clear_database Lab.lab EmptyString (Lab.world (Some Lab.three_rows)) =
  (Returned true,
   committed (Some {| Sql.rows := []; Sql.next_identity := 4 |})
             (Lab.world (Some Lab.three_rows))).
Proof.
  apply (C10_empty_prefix_clears_everything
           Lab.lab (Lab.world (Some Lab.three_rows)) Lab.three_rows).
  - repeat split.
  - reflexivity.
Defined.



(** C5.  Whenever [scrape_page] returns a dictionary, its [content] has at
    most 5000 characters. *)
Theorem C5_content_at_most_5000
        (E : Env) (url : string) (w w' : World) (d : page_data) :
  scrape_page E url w = (Returned (Some d), w') ->
  (String.length (d_content d) <= 5000)%nat.
Proof.
  intros Hrun.
  destruct (scrape_page_cases E url w) as [(d' & Heq & _ & Hlen)|(e & Heq)];
    rewrite Heq in Hrun; inversion Hrun; subst.
  lia.
Qed.

Lemma C5_content_at_most_5000_witness :
  exists d w',
    scrape_page Lab.lab Lab.home (Lab.world None) = (Returned (Some d), w')
    /\ (String.length (d_content d) <= 5000)%nat.
Proof.
  eexists; eexists; split.
  - vm_compute; reflexivity.
  - apply (C5_content_at_most_5000 Lab.lab Lab.home (Lab.world None)
                                   (requested (page_request Lab.home) (Lab.world None))).
    vm_compute; reflexivity.
Defined.

(** C4.  When the fetch of the seed fails, by an exception of the client or
    by a status from 400 to 599, [get_page_links] does not raise: it shows
    one error and returns the list that holds the seed alone. *)
Theorem C4_failed_fetch_returns_seed
        (E : Env) (base_url : string) (max_pages : Z) (w : World) :
  fetch_fails E (seed_request base_url) w ->
  exists e,
    get_page_links E base_url max_pages w =
    (Returned [base_url],
     reported ("Error getting page links: " ++ e)%string
              (requested (seed_request base_url) w)).
Proof. apply get_page_links_fetch_fails. Qed.

Lemma C4_failed_fetch_returns_seed_witness :
  exists e,
    get_page_links Lab.lab "https://example.com/gone" 5 (Lab.world None) =
    (Returned ["https://example.com/gone"],
     reported ("Error getting page links: " ++ e)%string
              (requested (seed_request "https://example.com/gone") (Lab.world None))).
Proof.
  apply (C4_failed_fetch_returns_seed Lab.lab "https://example.com/gone" 5
                                      (Lab.world None)).
  right; eexists; split; reflexivity.
Defined.

(** C8 on the code.  Both functions send one GET with a timeout of 10
    seconds, but only [scrape_page] passes the browser-like [User-Agent]:
    the request of [get_page_links] carries no header of the script at
    all. *)
Theorem C8_collector_request_has_no_user_agent
        (E : Env) (base_url url : string) (max_pages : Z) (w : World) :
  sent (snd (get_page_links E base_url max_pages w))
  = sent w ++ [mkRequest "GET" base_url [] (Some 10)]
  /\ Html.attr "User-Agent" (req_headers (seed_request base_url)) = None
  /\ sent (snd (scrape_page E url w))
     = sent w ++ [mkRequest "GET" url [("User-Agent", user_agent)] (Some 10)].
Proof.
  split; [|split; [reflexivity|]].
  - rewrite get_page_links_unfold; cbv zeta.
    destruct (http E (ticks w) (seed_request base_url)) as [r|e]; [|reflexivity].
    destruct (is_http_error r); [reflexivity|].
    destruct (html_parser E (resp_content r)) as [soup|e]; [|reflexivity].
    destruct (collect_links E base_url max_pages (Html.anchor_hrefs soup) [base_url]);
      reflexivity.
  - destruct (scrape_page_cases E url w) as [(d & Heq & _)|(e & Heq)];
      rewrite Heq; reflexivity.
Qed.

(** C3.  Every address [get_page_links] returns, the seed apart, is the
    absolute form of a link of the fetched page and has the netloc, hence
    the host, of the seed; and when no link of the page has the host of the
    seed, the result for a cap of at least one is the seed alone. *)
Theorem C3_collected_links_share_host
        (E : Env) (base_url : string) (max_pages : Z) (w w' : World)
        (l : list string) :
  get_page_links E base_url max_pages w = (Returned l, w') ->
  (forall u, In u l -> u <> base_url ->
     exists href n,
       In href (page_hrefs E base_url w)
       /\ urljoin E base_url href = Returned u
       /\ netloc E u = Returned n /\ netloc E base_url = Returned n
       /\ url_host E u = Some (hostname E n)
       /\ url_host E base_url = Some (hostname E n))
  /\ (1 <= max_pages ->
      (forall href u, In href (page_hrefs E base_url w) ->
                      urljoin E base_url href = Returned u ->
                      url_host E u <> url_host E base_url) ->
      l = [base_url]).
Proof.
  rewrite get_page_links_unfold; cbv zeta; unfold page_hrefs.
  destruct (http E (ticks w) (seed_request base_url)) as [r|e].
  2: { intros H; inversion H; subst; split; [|reflexivity].
       intros u [Hu|[]] Hne; congruence. }
  fold (is_http_error r).
  destruct (is_http_error r).
  { intros H; inversion H; subst; split; [|reflexivity].
    intros u [Hu|[]] Hne; congruence. }
  destruct (html_parser E (resp_content r)) as [soup|e].
  2: { intros H; inversion H; subst; split; [|reflexivity].
       intros u [Hu|[]] Hne; congruence. }
  destruct (collect_links E base_url max_pages (Html.anchor_hrefs soup) [base_url])
    as [links|e] eqn:Hloop.
  2: { intros H; inversion H; subst; split; [|reflexivity].
       intros u [Hu|[]] Hne; congruence. }
  intros H; inversion H; subst; clear H; split.
  - intros u Hu Hne; apply In_slice_to in Hu.
    destruct (collect_links_sound E base_url max_pages _ _ _ Hloop u Hu)
      as [[Hseed|[]]|(href & n & Hin & Hj & Hn & Hb)]; [congruence|].
    exists href, n; repeat split; try assumption;
      unfold url_host; [now rewrite Hn|now rewrite Hb].
  - intros Hcap Hforeign.
    destruct (collect_links_foreign E base_url max_pages _ [base_url] Hforeign)
      as [Hsame|[e He]]; rewrite Hloop in *; [|discriminate].
    inversion Hsame; subst.
    rewrite slice_to_firstn by lia.
    destruct (Z.to_nat max_pages) as [|m] eqn:Hm; [lia|].
    simpl; now destruct m.
Qed.

Lemma C3_collected_links_share_host_witness :
  get_page_links Lab.lab Lab.home 5 (Lab.world None)
  = (Returned ["https://example.com/"; "https://example.com/about";
               "https://example.com/news"],
     requested (seed_request Lab.home) (Lab.world None))
  /\ url_host Lab.lab "https://example.com/about" = Some "example.com".
Proof.
  split; [reflexivity|].
  destruct (C3_collected_links_share_host
              Lab.lab Lab.home 5 (Lab.world None)
              (requested (seed_request Lab.home) (Lab.world None))
              ["https://example.com/"; "https://example.com/about";
               "https://example.com/news"] eq_refl) as [Hhost _].
  destruct (Hhost "https://example.com/about") as (href & n & _ & _ & _ & Hb & Hu & _).
  - right; left; reflexivity.
  - discriminate.
  - rewrite Hu; simpl in Hb; inversion Hb; reflexivity.
Defined.

(** The number of new addresses the loop can add: the distinct same-site
    addresses of the page other than the seed. *)
Lemma count_links_news (E : Env) (base_url : string) (hrefs news : list string) :
  NoDup news ->
  (forall x, In x news <->
             In x (filter (same_domain E base_url) (resolved E base_url hrefs))
             /\ ~ In x [base_url]) ->
  List.length news = count_links E true base_url hrefs.
Proof.
  intros Hnd Hin; unfold count_links.
  assert (Hsame : forall x,
             In x news <->
             In x (nodup string_dec
                     (filter (fun u => same_domain E base_url u
                                       && negb (true && String.eqb u base_url))
                             (resolved E base_url hrefs)))).
  { intros x; rewrite nodup_In, Hin, !filter_In; simpl.
    rewrite andb_true_iff, negb_true_iff.
    destruct (String.eqb x base_url) eqn:Hx.
    - apply String.eqb_eq in Hx; subst; intuition congruence.
    - apply String.eqb_neq in Hx; intuition congruence. }
  apply Nat.le_antisymm; apply NoDup_incl_length;
    try assumption; try apply NoDup_nodup; intros x Hx; now apply Hsame.
Qed.

(** C2, as the script has it.  When the seed is fetched and parsed, every
    link of the page can be resolved, and the cap [M] is between 1 and 50,
    [get_page_links] returns [min (N + 1) M] addresses, where [N] counts
    the distinct addresses of the page, the seed's own apart, whose netloc
    is the netloc of the seed, character for character; the seed is among
    them and no address occurs twice. *)
Theorem C2_collector_returns_min
        (E : Env) (base_url : string) (max_pages : Z) (w : World)
        (r : Response) (soup : Html.soup) :
  http E (ticks w) (seed_request base_url) = Returned r ->
  is_http_error r = false ->
  html_parser E (resp_content r) = Returned soup ->
  parses E base_url (Html.anchor_hrefs soup) ->
  1 <= max_pages <= 50 ->
  exists l,
    get_page_links E base_url max_pages w
    = (Returned l, requested (seed_request base_url) w)
    /\ List.length l
       = Nat.min (List.length (netloc_links E base_url (Html.anchor_hrefs soup)) + 1)
                 (Z.to_nat max_pages)
    /\ In base_url l
    /\ NoDup l.
Proof.
  intros Hget Hok Hparse Hlinks Hcap.
  rewrite get_page_links_unfold; cbv zeta; rewrite Hget, Hok, Hparse.
  destruct (collect_links_prefix E base_url max_pages (Html.anchor_hrefs soup)
                                 [base_url] Hlinks)
    as (l' & t & Hloop & Hall & Hstop).
  rewrite Hloop.
  destruct (fold_add_new
              (filter (same_domain E base_url)
                      (resolved E base_url (Html.anchor_hrefs soup)))
              [base_url]) as (news & Hnews & Hnd & Hin).
  rewrite Hall in Hnews.
  pose proof (count_links_news E base_url _ news Hnd Hin) as Hcount.
  change (count_links E true base_url (Html.anchor_hrefs soup))
    with (List.length (netloc_links E base_url (Html.anchor_hrefs soup))) in Hcount.
  assert (Hl : Py.slice_to max_pages l' = firstn (Z.to_nat max_pages) (base_url :: news)).
  { rewrite slice_to_firstn by lia.
    rewrite (firstn_prefix (Z.to_nat max_pages) l' t) by (destruct Hstop; [now left|right; lia]).
    now rewrite Hnews. }
  exists (Py.slice_to max_pages l'); split; [reflexivity|].
  rewrite Hl; split; [|split].
  - rewrite length_firstn; simpl List.length; rewrite Hcount; lia.
  - destruct (Z.to_nat max_pages) as [|m] eqn:Hm; [lia|now left].
  - apply NoDup_firstn; constructor; [|assumption].
    intros Hb; apply Hin in Hb; destruct Hb as [_ Hb]; apply Hb; now left.
Qed.

Lemma C2_collector_returns_min_witness :
  exists l,
    get_page_links Lab.lab Lab.home 2 (Lab.world None)
    = (Returned l, requested (seed_request Lab.home) (Lab.world None))
    /\ List.length l = 2%nat.
Proof.
  destruct (C2_collector_returns_min
              Lab.lab Lab.home 2 (Lab.world None)
              (mkResponse 200 "<html>home</html>") (Lab.p_soup Lab.home_page))
    as (l & Hrun & Hlen & _).
  - reflexivity.
  - reflexivity.
  - reflexivity.
  - split; [eexists; reflexivity|].
    intros href Hhref; eexists; eexists; split; reflexivity.
  - lia.
  - exists l; split; [exact Hrun|exact Hlen].
Defined.

(** C2 as the specification words it fails in two ways.  A page that links
    to itself: the home page of the laboratory site holds three distinct
    same-domain addresses, one of them its own, and with a cap of 5 the
    collector returns three addresses, not [min (3 + 1) 5].  A link that
    names the seed's host in another way: the one link of the second page,
    [https://example.com:443/a], has the host of the seed, so [N] is 1, but
    not its netloc, and with a cap of 5 the collector returns the seed
    alone, not [min (1 + 1) 5] addresses. *)
Lemma C2_counterexample :
  (exists l w',
     get_page_links Lab.lab Lab.home 5 (Lab.world None) = (Returned l, w')
     /\ List.length (host_links Lab.lab Lab.home
                                (page_hrefs Lab.lab Lab.home (Lab.world None)))
        = 3%nat
     /\ List.length l <> Nat.min (3 + 1) (Z.to_nat 5))
  /\ (exists l w',
        get_page_links lab_ports Lab.home 5 (Lab.world None) = (Returned l, w')
        /\ page_hrefs lab_ports Lab.home (Lab.world None)
           = ["https://example.com:443/a"]
        /\ url_host lab_ports "https://example.com:443/a" = Some "example.com"
        /\ url_host lab_ports Lab.home = Some "example.com"
        /\ host_links lab_ports Lab.home
                      (page_hrefs lab_ports Lab.home (Lab.world None))
           = ["https://example.com:443/a"]
        /\ l = [Lab.home]
        /\ List.length l <> Nat.min (1 + 1) (Z.to_nat 5)).
Proof.
  split.
  - eexists; eexists; split; [vm_compute; reflexivity|].
    split; [vm_compute; reflexivity|].
    vm_compute; discriminate.
  - eexists; eexists; split; [vm_compute; reflexivity|].
    repeat (split; [vm_compute; reflexivity|]).
    vm_compute; discriminate.
Qed.

(** C7, as the script has it.  Let the table hold a row [r0] for [url],
    with keys as the identity column hands them out.  When the page is
    scraped again and the server stores it, a new row is appended and no
    row is updated: [r0] keeps its place, the new row has the same [url]
    and the next identity value, which is larger than every key in the
    table, so the keys stay distinct and increasing.  Its [scraped_at] is
    the reading of the server's clock at the insert, whatever that
    reading is. *)
Theorem C7_second_scrape_adds_a_row
        (E : Env) (url : string) (w w1 : World) (d : page_data)
        (t : Sql.table) (r0 : Sql.row) :
  scrape_page E url w = (Returned (Some d), w1) ->
  db_answers E w1 ->
  store w = Some t ->
  Keys.well_keyed t ->
  Sql.next_identity t <= Sql.INT_MAX ->
  In r0 (Sql.rows t) ->
  Sql.r_url r0 = url ->
  exists w2 t' r1,
    main_scrape_one E url w = (Returned true, w2)
    /\ store w2 = Some t'
    /\ Sql.rows t' = Sql.rows t ++ [r1]
    /\ Sql.r_url r1 = Sql.r_url r0
    /\ Sql.r_id r1 = Sql.next_identity t
    /\ (forall r, In r (Sql.rows t) -> Sql.r_id r < Sql.r_id r1)
    /\ Sql.r_id r1 <> Sql.r_id r0
    /\ Sql.r_scraped_at r1 = getdate E (S (ticks w1))
    /\ Keys.well_keyed t'
    /\ NoDup (map Sql.r_id (Sql.rows t')).
Proof.
  intros Hscrape Hdb Ht Hkeys Hid Hr0 Hurl.
  destruct (scrape_page_cases E url w) as [(d' & Heq & Hd & _)|(e & Heq)];
    rewrite Heq in Hscrape; inversion Hscrape; subst d' w1; clear Hscrape.
  set (w1 := requested (page_request url) w) in *.
  assert (Ht1 : store w1 = Some t) by exact Ht.
  pose proof (save_to_database_ok E d w1 t Hdb Ht1 Hid) as Hsave.
  set (t' := Sql.insert_row (d_url d) (d_title d) (d_content d)
                            (getdate E (S (ticks w1))) t) in *.
  assert (Hbelow : forall r, In r (Sql.rows t) -> Sql.r_id r < Sql.next_identity t).
  { apply Forall_forall, increasing_below_bound, Hkeys. }
  pose proof (well_keyed_insert (d_url d) (d_title d) (d_content d)
                                (getdate E (S (ticks w1))) t Hkeys) as Hkeys'.
  eexists; exists t'; eexists; split.
  - unfold main_scrape_one, bind; rewrite Heq, Hsave; reflexivity.
  - split; [reflexivity|split; [reflexivity|]].
    simpl; split; [congruence|split; [reflexivity|split; [exact Hbelow|]]].
    split; [specialize (Hbelow r0 Hr0); lia|split; [reflexivity|]].
    split; [exact Hkeys'|].
    exact (increasing_below_NoDup _ _ Hkeys').
Qed.

Lemma C7_second_scrape_adds_a_row_witness :
  exists w2 t' r1,
    main_scrape_one Lab.lab Lab.home
      (Lab.world (Some {| Sql.rows := [Lab.row_of 1 Lab.home];
                          Sql.next_identity := 2 |}))
    = (Returned true, w2)
    /\ store w2 = Some t'
    /\ Sql.rows t' = [Lab.row_of 1 Lab.home; r1]
    /\ Sql.r_id r1 = 2.
Proof.
  destruct (C7_second_scrape_adds_a_row
              Lab.lab Lab.home
              (Lab.world (Some {| Sql.rows := [Lab.row_of 1 Lab.home];
                                  Sql.next_identity := 2 |}))
              (requested (page_request Lab.home)
                 (Lab.world (Some {| Sql.rows := [Lab.row_of 1 Lab.home];
                                     Sql.next_identity := 2 |})))
              (mkPage Lab.home "Example"
                      "Example Welcome to the siteHomeAboutElsewhereAbout againNews")
              {| Sql.rows := [Lab.row_of 1 Lab.home]; Sql.next_identity := 2 |}
              (Lab.row_of 1 Lab.home))
    as (w2 & t' & r1 & Hrun & Hst & Hrows & _ & Hid & _).
  - vm_compute; reflexivity.
  - repeat split.
  - reflexivity.
  - split; [reflexivity|split; [constructor|exact I]].
  - vm_compute; discriminate.
  - now left.
  - reflexivity.
  - exists w2, t', r1; auto.
Defined.

(** C7 as the specification words it fails where the clock of the server
    does not advance between the two inserts (here it is put back, as
    local time is once a year): the page is stored twice, under two keys,
    with one and the same [scraped_at]. *)
Lemma C7_counterexample :
  exists w1 w2 r0 r1,
    main_scrape_one Lab.lab_put_back Lab.home (Lab.world (Some Sql.empty_table))
    = (Returned true, w1)
    /\ main_scrape_one Lab.lab_put_back Lab.home w1 = (Returned true, w2)
    /\ option_map Sql.rows (store w2) = Some [r0; r1]
    /\ Sql.r_url r0 = Sql.r_url r1
    /\ Sql.r_id r0 <> Sql.r_id r1
    /\ Sql.r_scraped_at r0 = Sql.r_scraped_at r1.
Proof.
  eexists; eexists; eexists; eexists.
  split; [vm_compute; reflexivity|].
  split; [vm_compute; reflexivity|].
  split; [vm_compute; reflexivity|].
  split; [reflexivity|split; [discriminate|reflexivity]].
Qed.

(** C9, as the script has it.  None of the seven functions that call out
    of the script raises: each returns, having shown either nothing or one
    error that names the function's task and carries the text of the
    exception.  When its fetch, a call to the database or the agent fails,
    the function shows that error and returns its fallback value: [False]
    for the three functions that write to the database, [None] for the page
    extractor and the agent, the empty frame for the reader, and for the
    link collector the list that holds the seed. *)
Theorem C9_failures_are_caught (E : Env) :
  (guarded (create_database_table E) "Database table creation error: " false
   /\ (forall b m, guarded (get_page_links E b m) "Error getting page links: " [b])
   /\ (forall u, guarded (scrape_page E u) ("Error scraping " ++ u ++ ": ") None)
   /\ (forall d, guarded (save_to_database E d) "Database save error: " false)
   /\ guarded (get_scraped_data E) "Database retrieval error: " []
   /\ (forall u, guarded (clear_database E u) "Database clear error: " false)
   /\ (forall q k, guarded (agent_sql_tool E q k) "Agent error: " None))
  /\ (forall b m w,
        fetch_fails E (seed_request b) w ->
        exists e, gives_up (get_page_links E b m) w "Error getting page links: " e [b])
  /\ (forall u w,
        fetch_fails E (page_request u) w ->
        exists e, gives_up (scrape_page E u) w ("Error scraping " ++ u ++ ": ") e None)
  /\ (forall w e,
        first_fault E (ticks w) 3 = Some e ->
        gives_up (create_database_table E) w "Database table creation error: " e false)
  /\ (forall d w e,
        first_fault E (ticks w) 3 = Some e ->
        exists e', gives_up (save_to_database E d) w "Database save error: " e' false)
  /\ (forall w e,
        first_fault E (ticks w) 2 = Some e ->
        gives_up (get_scraped_data E) w "Database retrieval error: " e [])
  /\ (forall u w e,
        first_fault E (ticks w) 3 = Some e ->
        exists e', gives_up (clear_database E u) w "Database clear error: " e' false)
  /\ (forall q k w e after,
        agent E (ticks w) k q (store w) = (Raised e, after) ->
        gives_up (agent_sql_tool E q k) w "Agent error: " e None).
Proof.
  split.
  { repeat split; intros;
      auto using create_database_table_guarded, get_page_links_guarded,
        scrape_page_guarded, save_to_database_guarded, get_scraped_data_guarded,
        clear_database_guarded, agent_sql_tool_guarded. }
  split.
  { intros b m w Hfail.
    destruct (get_page_links_fetch_fails E b m w Hfail) as [e He].
    exists e; eexists; split; [exact He|reflexivity]. }
  split.
  { intros u w Hfail.
    destruct (scrape_page_fetch_fails E u w Hfail) as [e He].
    exists e; eexists; split; [exact He|].
    simpl; now rewrite append_assoc. }
  split; [exact (create_database_table_fault E)|].
  split; [exact (save_to_database_fault E)|].
  split; [exact (get_scraped_data_fault E)|].
  split; [exact (clear_database_fault E)|].
  intros q k w e after; apply agent_sql_tool_fault.
Qed.

Lemma C9_failures_are_caught_witness :
  exists e,
    gives_up (scrape_page Lab.lab "https://example.com/gone") (Lab.world None)
             ("Error scraping " ++ "https://example.com/gone" ++ ": ") e None.
Proof.
  apply (C9_failures_are_caught Lab.lab).
  right; eexists; split; reflexivity.
Defined.

(** C9 as the specification words it fails for the link collector: after a
    failed fetch it returns neither an empty result nor [False] nor [None],
    but a list with one element, the seed. *)
Lemma C9_counterexample :
  fetch_fails Lab.lab (seed_request "https://example.com/gone") (Lab.world None)
  /\ exists l w',
       get_page_links Lab.lab "https://example.com/gone" 5 (Lab.world None)
       = (Returned l, w')
       /\ l = ["https://example.com/gone"]
       /\ l <> [].
Proof.
  split.
  - right; eexists; split; reflexivity.
  - eexists; eexists; split; [vm_compute; reflexivity|].
    split; [reflexivity|discriminate].
Qed.

(* ================================================================== *)
(** * More of the code *)

(** ** Characters *)

Lemma blank_is_space (c : ascii) : Py.is_blank c = true -> Py.is_space c = true.
Proof.
  unfold Py.is_blank, Py.is_space; intros H.
  apply Nat.eqb_eq in H; rewrite H; reflexivity.
Qed.

Lemma cr_is_linebreak (c : ascii) : Py.is_cr c = true -> Py.is_linebreak c = true.
Proof.
  unfold Py.is_cr, Py.is_linebreak; intros H.
  apply Nat.eqb_eq in H; rewrite H; reflexivity.
Qed.

Lemma not_space_not_blank (c : ascii) : Py.is_space c = false -> Py.is_blank c = false.
Proof.
  intros H; destruct (Py.is_blank c) eqn:Hb; [|reflexivity].
  apply blank_is_space in Hb; congruence.
Qed.

Lemma blank_not_linebreak (c : ascii) : Py.is_blank c = true -> Py.is_linebreak c = false.
Proof.
  unfold Py.is_blank, Py.is_linebreak; intros H.
  apply Nat.eqb_eq in H; rewrite H; reflexivity.
Qed.

(** ** Texts: joining and cutting *)

Lemma string_length_ind (P : string -> Prop) :
  (forall s, (forall t, (String.length t < String.length s)%nat -> P t) -> P s) ->
  forall s, P s.
Proof.
  intros Hstep s.
  assert (H : forall n t, (String.length t < n)%nat -> P t).
  { induction n as [|n IH]; intros t Ht; [lia|].
    apply Hstep; intros u Hu; apply IH; lia. }
  apply (H (S (String.length s))); lia.
Qed.

Lemma append_nil_r (s : string) : (s ++ EmptyString)%string = s.
Proof. induction s as [|c s IH]; simpl; [reflexivity|now rewrite IH]. Qed.

Lemma snoc_append (cur : string) (c : ascii) (s : string) :
  (Py.snoc cur c ++ s)%string = (cur ++ String c s)%string.
Proof. unfold Py.snoc; now rewrite append_assoc. Qed.

Lemma no_break_append (a b : string) :
  Shape.no_break (a ++ b) = Shape.no_break a && Shape.no_break b.
Proof.
  induction a as [|c a IH]; simpl; [reflexivity|].
  now rewrite IH, andb_assoc.
Qed.

Lemma no_break_snoc (cur : string) (c : ascii) :
  Shape.no_break (Py.snoc cur c) = Shape.no_break cur && negb (Py.is_linebreak c).
Proof. unfold Py.snoc; rewrite no_break_append; simpl; now rewrite andb_true_r. Qed.

Lemma no_double_blank_tail (c : ascii) (s : string) :
  Shape.no_double_blank (String c s) = true -> Shape.no_double_blank s = true.
Proof.
  simpl; destruct s as [|c2 s]; [reflexivity|].
  intros H; apply andb_true_iff in H; tauto.
Qed.

Lemma no_double_blank_cons (c : ascii) (s : string) :
  Shape.no_double_blank (String c s)
  = negb (Py.is_blank c && Shape.head_blank s) && Shape.no_double_blank s.
Proof.
  destruct s as [|c2 s]; [simpl; now rewrite andb_false_r|reflexivity].
Qed.

Lemma last_blank_snoc (cur : string) (c : ascii) :
  Shape.last_blank (Py.snoc cur c) = Py.is_blank c.
Proof.
  unfold Py.snoc; induction cur as [|h t IH]; [reflexivity|].
  cbn [append Shape.last_blank]; destruct t as [|h2 t2]; [reflexivity|exact IH].
Qed.

Lemma no_double_blank_snoc (cur : string) (c : ascii) :
  Shape.no_double_blank (Py.snoc cur c)
  = Shape.no_double_blank cur && negb (Shape.last_blank cur && Py.is_blank c).
Proof.
  unfold Py.snoc; induction cur as [|h t IH]; [reflexivity|].
  cbn [append]; rewrite !no_double_blank_cons, IH.
  destruct t as [|h2 t2]; cbn [append Shape.head_blank Shape.last_blank Shape.no_double_blank].
  - destruct (Py.is_blank h), (Py.is_blank c); reflexivity.
  - destruct (Py.is_blank h), (Py.is_blank h2),
      (Shape.no_double_blank (String h2 t2)),
      (Shape.last_blank (String h2 t2)), (Py.is_blank c); reflexivity.
Qed.

Lemma no_double_blank_append (a b : string) :
  Shape.no_double_blank (a ++ b)
  = Shape.no_double_blank a && Shape.no_double_blank b
    && negb (Shape.last_blank a && Shape.head_blank b).
Proof.
  revert a; induction b as [|c b IH]; intros a.
  - rewrite append_nil_r; simpl; now rewrite andb_false_r, !andb_true_r.
  - rewrite <- snoc_append, IH, no_double_blank_snoc, last_blank_snoc,
      no_double_blank_cons; simpl.
    destruct (Shape.no_double_blank a), (Shape.last_blank a), (Py.is_blank c),
      (Shape.head_blank b), (Shape.no_double_blank b); reflexivity.
Qed.

Lemma ends_clean_last_blank (s : string) :
  Shape.ends_clean s = true -> Shape.last_blank s = false.
Proof.
  induction s as [|c s IH]; [reflexivity|].
  cbn [Shape.ends_clean Shape.last_blank]; destruct s as [|c2 s].
  - intros H; apply negb_true_iff in H; now apply not_space_not_blank.
  - exact IH.
Qed.

Lemma starts_clean_head_blank (s : string) :
  Shape.starts_clean s = true -> Shape.head_blank s = false.
Proof.
  destruct s as [|c s]; [reflexivity|].
  simpl; intros H; apply negb_true_iff in H; now apply not_space_not_blank.
Qed.

Lemma ends_clean_append (a : string) (c : ascii) (b : string) :
  Shape.ends_clean (a ++ String c b) = Shape.ends_clean (String c b).
Proof.
  induction a as [|h t IH]; [reflexivity|].
  cbn [append Shape.ends_clean].
  destruct t as [|h2 t2]; cbn [append]; [reflexivity|exact IH].
Qed.

(** ** [strip], [splitlines] and [split] *)

Lemma lstrip_starts_clean (s : string) : Shape.starts_clean (Py.lstrip s) = true.
Proof.
  induction s as [|c s IH]; [reflexivity|].
  simpl; destruct (Py.is_space c) eqn:Hc; [exact IH|simpl; now rewrite Hc].
Qed.

Lemma lstrip_no_break (s : string) :
  Shape.no_break s = true -> Shape.no_break (Py.lstrip s) = true.
Proof.
  induction s as [|c s IH]; [reflexivity|].
  intros H; simpl; destruct (Py.is_space c); [|exact H].
  apply IH; simpl in H; apply andb_true_iff in H; tauto.
Qed.

Lemma lstrip_no_double_blank (s : string) :
  Shape.no_double_blank s = true -> Shape.no_double_blank (Py.lstrip s) = true.
Proof.
  induction s as [|c s IH]; [reflexivity|].
  intros H; simpl; destruct (Py.is_space c); [|exact H].
  apply IH; exact (no_double_blank_tail _ _ H).
Qed.

(** What [rstrip] keeps starts as the text starts. *)
Lemma rstrip_head (s : string) (k : ascii) (ks : string) :
  Py.rstrip s = String k ks -> exists r, s = String k r.
Proof.
  destruct s as [|c s]; [discriminate|].
  simpl; destruct (Py.rstrip s); [destruct (Py.is_space c)|];
    intros H; inversion H; subst; eauto.
Qed.

Lemma rstrip_ends_clean (s : string) : Shape.ends_clean (Py.rstrip s) = true.
Proof.
  induction s as [|c s IH]; [reflexivity|].
  simpl; destruct (Py.rstrip s) as [|k ks] eqn:Hr.
  - destruct (Py.is_space c) eqn:Hc; simpl; [reflexivity|now rewrite Hc].
  - exact IH.
Qed.

Lemma rstrip_starts_clean (s : string) :
  Shape.starts_clean s = true -> Shape.starts_clean (Py.rstrip s) = true.
Proof.
  destruct s as [|c s]; [reflexivity|].
  simpl; intros Hc; destruct (Py.rstrip s); [|exact Hc].
  apply negb_true_iff in Hc; rewrite Hc; simpl; now rewrite Hc.
Qed.

Lemma rstrip_no_break (s : string) :
  Shape.no_break s = true -> Shape.no_break (Py.rstrip s) = true.
Proof.
  induction s as [|c s IH]; [reflexivity|].
  simpl; intros H; apply andb_true_iff in H; destruct H as [Hc Hs].
  destruct (Py.rstrip s) as [|k ks] eqn:Hr.
  - destruct (Py.is_space c); simpl; [reflexivity|now rewrite Hc].
  - cbn [Shape.no_break]; rewrite Hc; exact (IH Hs).
Qed.

Lemma rstrip_no_double_blank (s : string) :
  Shape.no_double_blank s = true -> Shape.no_double_blank (Py.rstrip s) = true.
Proof.
  induction s as [|c s IH]; [reflexivity|].
  intros H; simpl; destruct (Py.rstrip s) as [|k ks] eqn:Hr.
  - now destruct (Py.is_space c).
  - destruct (rstrip_head _ _ _ Hr) as [r Hs]; subst s.
    rewrite no_double_blank_cons in H |- *; simpl in H |- *.
    apply andb_true_iff in H; destruct H as [Hpair Hrest].
    rewrite Hpair; exact (IH Hrest).
Qed.

(** A stripped text has no white space at either end, and keeps the shape
    the text had inside. *)
Lemma strip_shape (s : string) :
  Shape.starts_clean (Py.strip s) = true
  /\ Shape.ends_clean (Py.strip s) = true
  /\ (Shape.no_break s = true -> Shape.no_break (Py.strip s) = true)
  /\ (Shape.no_double_blank s = true -> Shape.no_double_blank (Py.strip s) = true).
Proof.
  unfold Py.strip; repeat split.
  - apply rstrip_starts_clean, lstrip_starts_clean.
  - apply rstrip_ends_clean.
  - intros H; now apply rstrip_no_break, lstrip_no_break.
  - intros H; now apply rstrip_no_double_blank, lstrip_no_double_blank.
Qed.

(** Every line [splitlines] returns is free of line breaks. *)
Lemma splitlines_from_no_break (s : string) :
  forall cur, Shape.no_break cur = true ->
              Forall (fun l => Shape.no_break l = true) (Py.splitlines_from cur s).
Proof.
  induction s as [s IH] using string_length_ind; intros cur Hcur.
  destruct s as [|c rest]; simpl.
  - destruct cur; repeat constructor; exact Hcur.
  - destruct (Py.is_cr c).
    + destruct rest as [|c2 rest2]; [repeat constructor; exact Hcur|].
      destruct (Py.is_lf c2); constructor; try exact Hcur;
        apply IH; simpl; try lia; reflexivity.
    + destruct (Py.is_linebreak c) eqn:Hc.
      * constructor; [exact Hcur|apply IH; simpl; [lia|reflexivity]].
      * apply IH; [simpl; lia|].
        rewrite no_break_snoc, Hcur, Hc; reflexivity.
Qed.

(** Every piece [split("  ")] returns is free of line breaks when the line
    is, and holds no two spaces side by side. *)
Lemma split_two_spaces_from_shape (s : string) :
  forall cur,
    Shape.no_break cur = true -> Shape.no_break s = true ->
    Shape.no_double_blank cur = true ->
    Shape.last_blank cur && Shape.head_blank s = false ->
    Forall (fun p => Shape.no_break p = true /\ Shape.no_double_blank p = true)
           (Py.split_two_spaces_from cur s).
Proof.
  induction s as [s IH] using string_length_ind; intros cur Hb Hs Hd Hj.
  destruct s as [|c rest]; simpl.
  - repeat constructor; assumption.
  - simpl in Hs; apply andb_true_iff in Hs; destruct Hs as [Hc Hrest].
    assert (Hsnoc : Shape.no_break (Py.snoc cur c) = true
                    /\ Shape.no_double_blank (Py.snoc cur c) = true).
    { rewrite no_break_snoc, no_double_blank_snoc, Hb, Hc, Hd.
      simpl in Hj; rewrite Hj; split; reflexivity. }
    destruct rest as [|c2 rest2]; [repeat constructor; tauto|].
    destruct (Py.is_blank c && Py.is_blank c2) eqn:Hpair.
    + constructor; [split; assumption|].
      simpl in Hrest; apply andb_true_iff in Hrest.
      apply IH; simpl; try lia; try reflexivity; tauto.
    + apply IH; simpl; try lia; try tauto.
      now rewrite last_blank_snoc.
Qed.

(** ** [clean_text] *)

Lemma chunk_parts (s : string) :
  Shape.chunk s = true ->
  exists c rest, s = String c rest
    /\ Shape.no_break s = true /\ Shape.no_double_blank s = true
    /\ Shape.starts_clean s = true /\ Shape.ends_clean s = true.
Proof.
  unfold Shape.chunk, Shape.tidy; intros H.
  repeat match goal with
         | H : _ && _ = true |- _ => apply andb_true_iff in H; destruct H
         end.
  destruct s as [|c rest]; [discriminate|].
  exists c, rest; repeat split; assumption.
Qed.

(** Words joined by one space make one tidy line. *)
Lemma join_chunks (l : list string) :
  Forall (fun p => Shape.chunk p = true) l ->
  Shape.tidy (Py.join " " l) = true
  /\ (l <> [] -> Py.truthy (Py.join " " l) = true).
Proof.
  induction l as [|x l IH]; intros Hall; [split; [reflexivity|congruence]|].
  inversion Hall as [|? ? Hx Hl]; subst.
  destruct (chunk_parts x Hx) as (c & rest & Heq & Hb & Hd & Hs & He).
  destruct l as [|y l'].
  - simpl; split; [|intros _; subst; reflexivity].
    unfold Shape.tidy; now rewrite Hb, Hd, Hs, He.
  - destruct (IH Hl) as [Htidy Hne].
    specialize (Hne ltac:(discriminate)).
    set (J := Py.join " " (y :: l')) in *.
    change (Py.join " " (x :: y :: l')) with (x ++ " " ++ J)%string.
    unfold Shape.tidy in Htidy.
    repeat (apply andb_true_iff in Htidy; destruct Htidy as [Htidy ?]).
    destruct J as [|j J']; [discriminate|].
    split; [|subst x; reflexivity].
    unfold Shape.tidy.
    rewrite no_break_append, no_double_blank_append, Hb, Hd.
    rewrite (ends_clean_last_blank x He).
    change (" " ++ String j J')%string with (String " " (String j J')).
    rewrite ends_clean_append.
    rewrite no_double_blank_cons.
    rewrite (starts_clean_head_blank (String j J')) by assumption.
    cbn [Shape.no_break Shape.ends_clean].
    subst x; cbn [append Shape.starts_clean].
    simpl in Hs; rewrite Hs.
    cbn [Shape.no_break] in Htidy; apply andb_true_iff in Htidy.
    repeat (apply andb_true_iff; split); try reflexivity; try assumption; tauto.
Qed.

Lemma Forall_flat_map {A B : Type} (P : B -> Prop) (f : A -> list B) (l : list A) :
  (forall a, In a l -> Forall P (f a)) -> Forall P (flat_map f l).
Proof.
  induction l as [|a l IH]; intros H; simpl; [constructor|].
  apply Forall_app; split; [apply H; now left|apply IH; intros; apply H; now right].
Qed.

(** The cleaned text is one tidy line: it holds no line break and no two
    spaces side by side, and neither starts nor ends with white space. *)
Lemma clean_text_tidy (content : string) : Shape.tidy (clean_text content) = true.
Proof.
  unfold clean_text; apply join_chunks.
  apply Forall_forall; intros p Hp.
  apply filter_In in Hp; destruct Hp as [Hp Hne].
  apply in_flat_map in Hp; destruct Hp as (line & Hline & Hp).
  apply in_map_iff in Hline; destruct Hline as (raw & Hraw & Hin).
  apply in_map_iff in Hp; destruct Hp as (piece & Hpiece & Hin').
  assert (Hrawb : Shape.no_break raw = true).
  { pose proof (splitlines_from_no_break content EmptyString eq_refl) as Hall.
    rewrite Forall_forall in Hall; exact (Hall raw Hin). }
  assert (Hlineb : Shape.no_break line = true)
    by (subst line; now apply strip_shape).
  assert (Hpieceok : Shape.no_break piece = true /\ Shape.no_double_blank piece = true).
  { pose proof (split_two_spaces_from_shape line EmptyString eq_refl Hlineb
                                            eq_refl eq_refl) as Hall.
    rewrite Forall_forall in Hall; exact (Hall piece Hin'). }
  destruct Hpieceok as [Hpb Hpd].
  destruct (strip_shape piece) as (Hs & He & Hkb & Hkd).
  unfold Shape.chunk, Shape.tidy; subst p.
  now rewrite Hne, (Hkb Hpb), (Hkd Hpd), Hs, He.
Qed.

Lemma lstrip_fixed (s : string) : Shape.starts_clean s = true -> Py.lstrip s = s.
Proof.
  destruct s as [|c s]; [reflexivity|].
  simpl; intros H; apply negb_true_iff in H; now rewrite H.
Qed.

Lemma rstrip_fixed (s : string) : Shape.ends_clean s = true -> Py.rstrip s = s.
Proof.
  induction s as [|c s IH]; [reflexivity|].
  cbn [Shape.ends_clean Py.rstrip]; destruct s as [|k ks].
  - intros H; apply negb_true_iff in H; simpl; now rewrite H.
  - intros H; now rewrite (IH H).
Qed.

Lemma strip_fixed (s : string) :
  Shape.starts_clean s = true -> Shape.ends_clean s = true -> Py.strip s = s.
Proof.
  intros Hs He; unfold Py.strip; now rewrite (lstrip_fixed s Hs), (rstrip_fixed s He).
Qed.

Lemma splitlines_from_one_line (s : string) :
  forall cur, Shape.no_break s = true ->
    Py.splitlines_from cur s
    = match (cur ++ s)%string with
      | EmptyString => []
      | line => [line]
      end.
Proof.
  induction s as [|c s IH]; intros cur H.
  - simpl; rewrite append_nil_r; now destruct cur.
  - simpl in H; apply andb_true_iff in H; destruct H as [Hc Hs].
    apply negb_true_iff in Hc.
    cbn [Py.splitlines_from].
    destruct (Py.is_cr c) eqn:Hcr; [apply cr_is_linebreak in Hcr; congruence|].
    rewrite Hc, (IH _ Hs), snoc_append; reflexivity.
Qed.

Lemma split_two_spaces_from_one_piece (s : string) :
  forall cur, Shape.no_double_blank s = true ->
    Py.split_two_spaces_from cur s = [(cur ++ s)%string].
Proof.
  induction s as [|c s IH]; intros cur H.
  - simpl; now rewrite append_nil_r.
  - cbn [Py.split_two_spaces_from]; destruct s as [|c2 s2]; [reflexivity|].
    rewrite no_double_blank_cons in H; simpl in H.
    apply andb_true_iff in H; destruct H as [Hpair Hrest].
    apply negb_true_iff in Hpair; rewrite Hpair, (IH _ Hrest), snoc_append.
    reflexivity.
Qed.

(** A tidy line is a fixed point of the cleaning. *)
Lemma clean_text_fixed (s : string) : Shape.tidy s = true -> clean_text s = s.
Proof.
  unfold Shape.tidy; intros H.
  repeat (apply andb_true_iff in H; destruct H as [H ?]).
  unfold clean_text, Py.splitlines, Py.split_two_spaces.
  rewrite splitlines_from_one_line by assumption.
  destruct s as [|c s]; [reflexivity|].
  cbn [append map flat_map].
  rewrite strip_fixed by assumption.
  rewrite split_two_spaces_from_one_piece by assumption.
  cbn [append map]; rewrite strip_fixed by assumption.
  reflexivity.
Qed.

(** ** Cutting a text short *)

Lemma str_take_head (n : nat) (s : string) (k : ascii) (ks : string) :
  Py.str_take n s = String k ks -> exists r, s = String k r.
Proof.
  destruct n as [|n], s as [|c s]; simpl; try discriminate.
  intros H; inversion H; eauto.
Qed.

Lemma str_take_shape (n : nat) (s : string) :
  (Shape.no_break s = true -> Shape.no_break (Py.str_take n s) = true)
  /\ (Shape.no_double_blank s = true -> Shape.no_double_blank (Py.str_take n s) = true)
  /\ (Shape.starts_clean s = true -> Shape.starts_clean (Py.str_take n s) = true).
Proof.
  revert s; induction n as [|n IH]; intros s; [repeat split|].
  destruct s as [|c s]; [repeat split|].
  destruct (IH s) as (Hb & Hd & _); cbn [Py.str_take]; split; [|split].
  - simpl; intros H; apply andb_true_iff in H; destruct H as [Hc Hs].
    now rewrite Hc, (Hb Hs).
  - intros H; rewrite no_double_blank_cons in H |- *.
    apply andb_true_iff in H; destruct H as [Hpair Hs]; rewrite (Hd Hs).
    destruct (Py.str_take n s) as [|k ks] eqn:Htake;
      [simpl; now rewrite andb_false_r|].
    destruct (str_take_head _ _ _ _ Htake) as [r Hr]; subst s.
    simpl in Hpair |- *; now rewrite Hpair.
  - trivial.
Qed.

(** ** Removing tags from a document *)

Lemma node_induction (P : Html.node -> Prop) :
  (forall s, P (Html.Text s)) ->
  (forall s, P (Html.Comment s)) ->
  (forall name attrs children,
      Forall P children -> P (Html.Tag name attrs children)) ->
  forall n, P n.
Proof.
  intros Htext Hcomment Htag; fix IH 1; intros [s|s|name attrs children].
  - apply Htext.
  - apply Hcomment.
  - apply Htag; revert children; fix IHl 1; intros [|c cs]; constructor.
    + apply IH.
    + apply IHl.
Qed.

Lemma flat_map_nil {A B : Type} (f : A -> list B) (l : list A) :
  Forall (fun x => f x = []) l <-> flat_map f l = [].
Proof.
  induction l as [|x l IH]; simpl; split; intros H; try constructor; try reflexivity.
  - inversion H; subst; rewrite H2; simpl; now apply IH.
  - apply app_eq_nil in H; tauto.
  - apply app_eq_nil in H; apply IH; tauto.
Qed.

Section Decompose.

Variable names : list string.

(** What [decompose] leaves of a node holds no tag with one of the names. *)
Lemma decompose_clears (n : Html.node) :
  Forall (fun m => Html.find_all (named names) m = []) (Html.decompose names n).
Proof.
  induction n as [s|s|name attrs children IH] using node_induction;
    try (repeat constructor).
  simpl; destruct (Py.contains name names) eqn:Hname; repeat constructor.
  simpl; unfold named at 1; rewrite Hname; simpl.
  apply flat_map_nil, Forall_flat_map.
  intros c Hc; rewrite Forall_forall in IH; exact (IH c Hc).
Qed.

(** A node that holds no tag with one of the names is left as it is. *)
Lemma decompose_keeps (n : Html.node) :
  Html.find_all (named names) n = [] -> Html.decompose names n = [n].
Proof.
  induction n as [s|s|name attrs children IH] using node_induction;
    try reflexivity.
  simpl; unfold named at 1.
  destruct (Py.contains name names); [discriminate|]; simpl.
  intros Hnone; apply flat_map_nil in Hnone.
  f_equal; f_equal.
  induction children as [|c cs IHcs]; [reflexivity|].
  inversion IH; inversion Hnone; subst; simpl.
  rewrite H1 by assumption; simpl; f_equal; now apply IHcs.
Qed.

Lemma soup_decompose_clears (doc : Html.soup) :
  Html.soup_find_all (named names) (Html.soup_decompose names doc) = [].
Proof.
  unfold Html.soup_find_all, Html.soup_decompose.
  apply flat_map_nil, Forall_flat_map; intros n _; apply decompose_clears.
Qed.

Lemma soup_decompose_keeps (doc : Html.soup) :
  Html.soup_find_all (named names) doc = [] -> Html.soup_decompose names doc = doc.
Proof.
  unfold Html.soup_find_all, Html.soup_decompose; intros H.
  apply flat_map_nil in H.
  induction doc as [|n doc IH]; [reflexivity|].
  inversion H; subst; simpl.
  rewrite decompose_keeps by assumption; simpl; f_equal; now apply IH.
Qed.

End Decompose.

(** ** Reading the table *)

Lemma insert_desc_perm (r : Sql.row) (l : list Sql.row) :
  Permutation (r :: l) (Sql.insert_desc r l).
Proof.
  induction l as [|x l IH]; simpl; [reflexivity|].
  destruct (Sql.r_scraped_at x <? Sql.r_scraped_at r); [reflexivity|].
  rewrite perm_swap; now constructor.
Qed.

Lemma order_by_perm (l : list Sql.row) :
  Permutation l (Sql.order_by_scraped_at_desc l).
Proof.
  induction l as [|r l IH]; simpl; [reflexivity|].
  rewrite <- insert_desc_perm; now constructor.
Qed.

Lemma insert_desc_sorted (r : Sql.row) (l : list Sql.row) :
  StronglySorted newest_first l -> StronglySorted newest_first (Sql.insert_desc r l).
Proof.
  induction l as [|x l IH]; intros Hs; simpl; [repeat constructor|].
  inversion Hs as [|? ? Hl Hx]; subst.
  destruct (Sql.r_scraped_at x <? Sql.r_scraped_at r) eqn:Hlt.
  - apply Z.ltb_lt in Hlt; constructor; [exact Hs|].
    constructor; [unfold newest_first; lia|].
    eapply Forall_impl; [|exact Hx]; unfold newest_first; intros; lia.
  - apply Z.ltb_ge in Hlt; constructor; [now apply IH|].
    apply (Permutation_Forall (insert_desc_perm r l)).
    constructor; [exact Hlt|exact Hx].
Qed.

Lemma order_by_sorted (l : list Sql.row) :
  StronglySorted newest_first (Sql.order_by_scraped_at_desc l).
Proof.
  induction l as [|r l IH]; simpl; [constructor|now apply insert_desc_sorted].
Qed.

(** ** The collector under every environment *)

Section CollectorAlways.

Variable E : Env.
Variable base_url : string.
Variable max_pages : Z.

(** The loop only appends, and never an address the list holds. *)
Lemma collect_links_grows (hrefs links l' : list string) :
  collect_links E base_url max_pages hrefs links = Returned l' ->
  (exists extra, l' = links ++ extra) /\ (NoDup links -> NoDup l').
Proof.
  revert links; induction hrefs as [|href rest IH]; intros links Hrun.
  - inversion Hrun; subst; split; [exists []; now rewrite app_nil_r|trivial].
  - cbn [collect_links] in Hrun.
    destruct (urljoin E base_url href) as [full|]; [|discriminate].
    cbn [rbind] in Hrun.
    destruct (netloc E full) as [n|]; [|discriminate].
    cbn [rbind] in Hrun.
    destruct (netloc E base_url) as [nb|]; [|discriminate].
    cbn [rbind] in Hrun.
    destruct (String.eqb n nb); [|now apply IH].
    fold (add_new links full) in Hrun.
    assert (Hadd : (exists extra, add_new links full = links ++ extra)
                   /\ (NoDup links -> NoDup (add_new links full))).
    { unfold add_new; destruct (Py.contains full links) eqn:Hin; simpl.
      - split; [exists []; now rewrite app_nil_r|trivial].
      - apply contains_not_In in Hin; split; [now exists [full]|].
        intros Hnd; apply NoDup_app; auto.
        + repeat constructor; intros [].
        + intros x Hx [Heq|[]]; subst; contradiction. }
    destruct Hadd as [[e1 He1] Hnd1].
    destruct (Z.of_nat _ >=? max_pages) in Hrun.
    + inversion Hrun; subst l'; split; [now exists e1|exact Hnd1].
    + destruct (IH _ Hrun) as [[e2 He2] Hnd2]; split.
      * exists (e1 ++ e2); now rewrite He2, He1, app_assoc.
      * intros Hnd; auto.
Qed.

Lemma get_page_links_bounds (w : World) :
  1 <= max_pages ->
  exists l rest w',
    get_page_links E base_url max_pages w = (Returned l, w')
    /\ l = base_url :: rest
    /\ Z.of_nat (List.length l) <= max_pages
    /\ NoDup l.
Proof.
  intros Hcap.
  assert (Hfail : forall e, exists l rest w',
             (Returned [base_url],
              reported e (requested (seed_request base_url) w))
             = (Returned l, w')
             /\ l = base_url :: rest /\ Z.of_nat (List.length l) <= max_pages
             /\ NoDup l).
  { intros e; eexists; exists []; eexists; split; [reflexivity|].
    split; [reflexivity|split; [simpl; lia|repeat constructor; intros []]]. }
  rewrite get_page_links_unfold; cbv zeta.
  destruct (http E (ticks w) (seed_request base_url)) as [r|e]; [|apply Hfail].
  destruct (is_http_error r); [apply Hfail|].
  destruct (html_parser E (resp_content r)) as [soup|e]; [|apply Hfail].
  destruct (collect_links E base_url max_pages (Html.anchor_hrefs soup) [base_url])
    as [links|e] eqn:Hloop; [|apply Hfail].
  destruct (collect_links_grows _ _ _ Hloop) as [[extra Hext] Hnd].
  rewrite slice_to_firstn by lia.
  destruct (Z.to_nat max_pages) as [|m] eqn:Hm; [lia|].
  subst links; simpl.
  eexists; eexists; eexists; split; [reflexivity|]; split; [reflexivity|split].
  - pose proof (firstn_le_length m extra); simpl; lia.
  - change (base_url :: firstn m extra)
      with (firstn (S m) ([base_url] ++ extra)).
    apply NoDup_firstn, Hnd; repeat constructor; intros [].
Qed.

(** When every link parses the result is the start of one list: the seed,
    then the same-site addresses in the order of the page, each where it
    first occurs. *)
Lemma get_page_links_in_page_order (w : World) (r : Response) (soup : Html.soup) :
  http E (ticks w) (seed_request base_url) = Returned r ->
  is_http_error r = false ->
  html_parser E (resp_content r) = Returned soup ->
  parses E base_url (Html.anchor_hrefs soup) ->
  1 <= max_pages ->
  get_page_links E base_url max_pages w
  = (Returned
       (firstn (Z.to_nat max_pages)
          (fold_left add_new
             (filter (same_domain E base_url)
                     (resolved E base_url (Html.anchor_hrefs soup)))
             [base_url])),
     requested (seed_request base_url) w).
Proof.
  intros Hget Hok Hparse Hlinks Hcap.
  rewrite get_page_links_unfold; cbv zeta; rewrite Hget, Hok, Hparse.
  destruct (collect_links_prefix E base_url max_pages (Html.anchor_hrefs soup)
                                 [base_url] Hlinks)
    as (l' & t & Hloop & Hall & Hstop).
  rewrite Hloop, Hall, slice_to_firstn by lia.
  rewrite (firstn_prefix (Z.to_nat max_pages) l' t)
    by (destruct Hstop; [now left|right; lia]).
  reflexivity.
Qed.

End CollectorAlways.

(** ** One page of the scraping loop *)

Section Loop.

Variable E : Env.

(** What a store call does to the table and to the log of requests, under
    every outcome. *)
Lemma save_to_database_outcome (d : page_data) (w : World) :
  exists b w',
    save_to_database E d w = (Returned b, w')
    /\ sent w' = sent w
    /\ match store w with
       | None => b = false /\ store w' = None
       | Some t =>
           exists t' extra,
             store w' = Some t'
             /\ Sql.rows t' = Sql.rows t ++ extra
             /\ Sql.next_identity t <= Sql.next_identity t'
             /\ if b
                then exists now,
                       extra = [Sql.mkRow (Sql.next_identity t) (d_url d)
                                          (d_title d) (d_content d) now]
                else extra = []
       end.
Proof.
  unfold save_to_database, try_except, bind, pyodbc_connect, execute_insert,
    conn_commit, ret, st_error, show, tick, set_store; simpl.
  assert (Hsame : forall t : Sql.table,
             exists t' extra,
               Some t = Some t' /\ Sql.rows t' = Sql.rows t ++ extra
               /\ Sql.next_identity t <= Sql.next_identity t' /\ extra = []).
  { intros t; exists t, []; rewrite app_nil_r; repeat split; lia. }
  destruct (db_fault E (ticks w)); simpl.
  { eexists; eexists; split; [reflexivity|split; [reflexivity|]].
    destruct (store w); [apply Hsame|auto]. }
  destruct (store w) as [t|] eqn:Ht; simpl.
  2: { destruct (db_fault E (S (ticks w))); simpl;
         eexists; eexists; (split; [reflexivity|split; [reflexivity|]]);
         rewrite ?Ht; auto. }
  destruct (db_fault E (S (ticks w))); simpl.
  { eexists; eexists; split; [reflexivity|split; [reflexivity|apply Hsame]]. }
  destruct (Sql.INT_MAX <? Sql.next_identity t); simpl.
  { eexists; eexists; split; [reflexivity|split; [reflexivity|apply Hsame]]. }
  destruct (db_fault E (S (S (ticks w)))); simpl.
  - eexists; eexists; split; [reflexivity|split; [reflexivity|]].
    eexists; exists []; rewrite app_nil_r; simpl.
    split; [reflexivity|split; [reflexivity|split; [simpl; lia|reflexivity]]].
  - eexists; eexists; split; [reflexivity|split; [reflexivity|]].
    eexists; eexists; split; [reflexivity|].
    split; [reflexivity|split; [simpl; lia|eexists; reflexivity]].
Qed.

Lemma main_scrape_one_step (link : string) (w : World) :
  exists b w',
    main_scrape_one E link w = (Returned b, w')
    /\ sent w' = sent w ++ [page_request link]
    /\ match store w with
       | None => b = false /\ store w' = None
       | Some t =>
           exists t' extra,
             store w' = Some t'
             /\ Sql.rows t' = Sql.rows t ++ extra
             /\ Sql.next_identity t <= Sql.next_identity t'
             /\ List.length extra = (if b then 1 else 0)%nat
             /\ Forall (scraped_from [link]) extra
       end.
Proof.
  unfold main_scrape_one, bind.
  destruct (scrape_page_cases E link w) as [(d & Heq & Hurl & Hlen)|(e & Heq)];
    rewrite Heq.
  - destruct (save_to_database_outcome d (requested (page_request link) w))
      as (b & w1 & Hsave & Hsent & Hstore).
    rewrite Hsave.
    assert (Hgoal : forall w2, sent w2 = sent w1 -> store w2 = store w1 ->
               sent w2 = sent w ++ [page_request link]
               /\ match store w with
                  | None => b = false /\ store w2 = None
                  | Some t =>
                      exists t' extra,
                        store w2 = Some t'
                        /\ Sql.rows t' = Sql.rows t ++ extra
                        /\ Sql.next_identity t <= Sql.next_identity t'
                        /\ List.length extra = (if b then 1 else 0)%nat
                        /\ Forall (scraped_from [link]) extra
                  end).
    { intros w2 Hs2 Ht2; rewrite Hs2, Hsent, Ht2; split; [reflexivity|].
      simpl in Hstore; destruct (store w) as [t|]; [|exact Hstore].
      destruct Hstore as (t' & extra & H1 & H2 & H3 & H4).
      exists t', extra; repeat split; try assumption.
      - destruct b; [destruct H4 as [now H4]|]; subst extra; reflexivity.
      - destruct b; [destruct H4 as [now H4]|]; subst extra; constructor;
          [|constructor].
        split; simpl; [left; congruence|lia]. }
    destruct b; simpl; eexists; eexists; (split; [reflexivity|]);
      apply Hgoal; reflexivity.
  - exists false; eexists; split; [reflexivity|]; split; [reflexivity|].
    simpl; destruct (store w) as [t|]; [|auto].
    exists t, []; rewrite app_nil_r; repeat split; try lia; constructor.
Qed.

(** The loop never raises; it sends one request a page, in order, and the
    count it returns grows by the number of rows it has added. *)
Lemma main_scrape_loop_run (links : list string) :
  forall (count : Z) (w : World),
  exists count' w',
    main_scrape_loop E links count w = (Returned count', w')
    /\ sent w' = sent w ++ map page_request links
    /\ count <= count' <= count + Z.of_nat (List.length links)
    /\ match store w with
       | None => count' = count /\ store w' = None
       | Some t =>
           exists t' extra,
             store w' = Some t'
             /\ Sql.rows t' = Sql.rows t ++ extra
             /\ Z.of_nat (List.length extra) = count' - count
             /\ Forall (scraped_from links) extra
       end.
Proof.
  induction links as [|link rest IH]; intros count w.
  - exists count, w; simpl; rewrite app_nil_r; repeat split; try lia.
    destruct (store w) as [t|]; [|auto].
    exists t, []; rewrite app_nil_r; repeat split; [simpl; lia|constructor].
  - cbn [main_scrape_loop]; unfold bind at 1.
    destruct (main_scrape_one_step link w) as (b & w1 & Hone & Hsent1 & Hstore1).
    rewrite Hone.
    destruct (IH (if b then count + 1 else count) w1)
      as (count' & w' & Hrest & Hsent & Hcount & Hstore).
    exists count', w'; split; [exact Hrest|split; [|split]].
    + rewrite Hsent, Hsent1, <- app_assoc; reflexivity.
    + cbn [List.length]; destruct b; lia.
    + destruct (store w) as [t|].
      * destruct Hstore1 as (t1 & e1 & Ht1 & Hrows1 & _ & Hlen1 & Hall1).
        rewrite Ht1 in Hstore.
        destruct Hstore as (t' & e2 & Ht' & Hrows & Hlen & Hall).
        exists t', (e1 ++ e2); split; [exact Ht'|split; [|split]].
        -- now rewrite Hrows, Hrows1, app_assoc.
        -- rewrite length_app, Nat2Z.inj_add, Hlen, Hlen1; destruct b; lia.
        -- apply Forall_app; split; eapply Forall_impl; try eassumption;
             intros r [Hin Hc]; split; try assumption;
             [destruct Hin as [Hin|[]]; now left|now right].
      * destruct Hstore1 as [Hb Hnone]; rewrite Hnone in Hstore; subst b.
        exact Hstore.
Qed.

End Loop.

(** ** The text of the delete statement *)

Lemma lex_literal_quote_free (p : string) :
  quote_free p = true ->
  Sql.lex_literal (p ++ "%'")%string = Some ((p ++ "%")%string, EmptyString).
Proof.
  intros Hp; induction p as [|c p IH]; [reflexivity|].
  simpl in Hp; apply andb_true_iff in Hp; destruct Hp as [Hc Hp].
  apply negb_true_iff in Hc.
  cbn [append Sql.lex_literal]; rewrite Hc, (IH Hp); reflexivity.
Qed.

(** The closing quote is not part of what the literal gives. *)
Lemma lex_literal_length (s : string) :
  forall v tail, Sql.lex_literal s = Some (v, tail) ->
                 (String.length v + String.length tail < String.length s)%nat.
Proof.
  induction s as [s IH] using string_length_ind; intros v tail.
  destruct s as [|c rest]; [discriminate|].
  cbn [Sql.lex_literal]; destruct (Sql.is_quote c).
  - destruct rest as [|c2 rest2]; [intros H; inversion H; simpl; lia|].
    destruct (Sql.is_quote c2).
    + destruct (Sql.lex_literal rest2) as [[v' t']|] eqn:Hlex; [|discriminate].
      intros H; inversion H; subst.
      specialize (IH rest2 ltac:(simpl; lia) _ _ Hlex); simpl; lia.
    + intros H; inversion H; subst; simpl; lia.
  - destruct (Sql.lex_literal rest) as [[v' t']|] eqn:Hlex; [|discriminate].
    intros H; inversion H; subst.
    specialize (IH rest ltac:(simpl; lia) _ _ Hlex); simpl; lia.
Qed.

Lemma append_length (a b : string) :
  String.length (a ++ b) = (String.length a + String.length b)%nat.
Proof. induction a as [|c a IH]; simpl; [reflexivity|now rewrite IH]. Qed.

Lemma lex_literal_read_back (p : string) :
  Sql.lex_literal (p ++ "%'")%string = Some ((p ++ "%")%string, EmptyString) ->
  quote_free p = true.
Proof.
  induction p as [|c p IH]; [reflexivity|].
  cbn [append Sql.lex_literal quote_free].
  destruct (Sql.is_quote c) eqn:Hc; simpl.
  - destruct (p ++ "%'")%string as [|c2 rest2] eqn:Hrest;
      [intros H; inversion H|].
    destruct (Sql.is_quote c2); [|intros H; inversion H].
    destruct (Sql.lex_literal rest2) as [[v' t']|] eqn:Hlex; [|discriminate].
    intros H; inversion H; subst.
    apply lex_literal_length in Hlex.
    assert (Hlen : String.length (String c2 rest2) = (String.length p + 2)%nat)
      by (rewrite <- Hrest, append_length; simpl; lia).
    rewrite append_length in Hlex; simpl in Hlex, Hlen; lia.
  - destruct (Sql.lex_literal (p ++ "%'")) as [[v' t']|] eqn:Hlex; [|discriminate].
    intros H; inversion H; subst; now apply IH.
Qed.

Lemma classify_quote_free (u : string) :
  Sql.classify (clear_statement u) = Sql.DeleteUrlLike (u ++ "%")%string
  <-> quote_free u = true.
Proof.
  unfold Sql.classify, clear_statement.
  change ("DELETE FROM scraped_data WHERE url LIKE '" ++ u ++ "%'")%string
    with (Sql.delete_like_head ++ (u ++ "%'"))%string.
  rewrite strip_prefix_append; split.
  - destruct (Sql.lex_literal (u ++ "%'")) as [[v [|t ts]]|] eqn:Hlex;
      try discriminate.
    intros H; inversion H; subst; now apply lex_literal_read_back.
  - intros H; now rewrite (lex_literal_quote_free u H).
Qed.

(** ** The database functions under every outcome *)

Section Outcomes.

Variable E : Env.

(** A table the delete statement was run on: rows may be gone, none is
    new or changed, and the identity counter is where it was. *)
Lemma clear_database_outcome (u : string) (w : World) (t : Sql.table) :
  quote_free u = true -> store w = Some t ->
  exists b w' t',
    clear_database E u w = (Returned b, w')
    /\ store w' = Some t'
    /\ Sql.next_identity t' = Sql.next_identity t
    /\ Sql.rows t'
       = (if b
          then filter (fun r => negb (Sql.like (collation E) (Sql.r_url r)
                                               (u ++ "%")%string)) (Sql.rows t)
          else Sql.rows t).
Proof.
  intros Hu Ht; apply classify_quote_free in Hu.
  unfold clear_database, try_except, bind, pyodbc_connect, execute_text,
    conn_commit, ret, st_error, show, tick, set_store; simpl.
  destruct (db_fault E (ticks w)); simpl.
  { exists false; eexists; exists t; repeat split; assumption. }
  destruct (db_fault E (S (ticks w))); simpl.
  { exists false; eexists; exists t; repeat split; assumption. }
  rewrite Hu, Ht; simpl.
  destruct (db_fault E (S (S (ticks w)))); simpl.
  - exists false; eexists; eexists; split; [reflexivity|]; repeat split.
  - exists true; eexists; eexists; split; [reflexivity|]; repeat split.
Qed.

Lemma create_database_table_outcome (w : World) :
  exists b w',
    create_database_table E w = (Returned b, w')
    /\ sent w' = sent w
    /\ match store w with
       | Some t => store w' = Some t
       | None => store w' = (if b then Some Sql.empty_table else None)
       end.
Proof.
  unfold create_database_table, try_except, bind, pyodbc_connect,
    execute_create, conn_commit, ret, st_error, show, tick, set_store; simpl.
  destruct (db_fault E (ticks w)); simpl.
  { exists false; eexists; split; [reflexivity|split; [reflexivity|]].
    now destruct (store w). }
  destruct (db_fault E (S (ticks w))); simpl.
  { exists false; eexists; split; [reflexivity|split; [reflexivity|]].
    now destruct (store w). }
  destruct (db_fault E (S (S (ticks w)))); simpl.
  - exists false; eexists; split; [reflexivity|split; [reflexivity|]].
    destruct (store w) as [[rows next]|]; reflexivity.
  - exists true; eexists; split; [reflexivity|split; [reflexivity|]].
    now destruct (store w).
Qed.

End Outcomes.

(** ** The page extractor and the run of [main] *)

Section Runs.

Variable E : Env.

Lemma tidy_parts (s : string) :
  Shape.tidy s = true ->
  Shape.no_break s = true /\ Shape.no_double_blank s = true
  /\ Shape.starts_clean s = true /\ Shape.ends_clean s = true.
Proof.
  unfold Shape.tidy; intros H.
  repeat match goal with
         | H : _ && _ = true |- _ => apply andb_true_iff in H; destruct H
         end.
  repeat split; assumption.
Qed.

Lemma scrape_page_shape (url : string) (w w' : World) (d : page_data) :
  scrape_page E url w = (Returned (Some d), w') ->
  w' = requested (page_request url) w
  /\ d_url d = url
  /\ Shape.starts_clean (d_title d) = true
  /\ Shape.ends_clean (d_title d) = true
  /\ Shape.no_break (d_content d) = true
  /\ Shape.no_double_blank (d_content d) = true
  /\ Shape.starts_clean (d_content d) = true.
Proof.
  unfold scrape_page, try_except, bind, requests_get, raise_for_status.
  fold (page_request url).
  destruct (http E (ticks w) (page_request url)) as [r|e]; [|discriminate].
  destruct ((400 <=? status_code r) && (status_code r <? 600)); [discriminate|].
  unfold ret, lift.
  destruct (html_parser E (resp_content r)) as [soup|e]; [|discriminate].
  simpl; intros H; inversion H; subst; clear H; simpl.
  split; [reflexivity|split; [reflexivity|]].
  assert (Htitle : forall t,
             Shape.starts_clean t = true /\ Shape.ends_clean t = true ->
             Shape.starts_clean t = true /\ Shape.ends_clean t = true) by trivial.
  split; [destruct (Html.find_title soup); [apply strip_shape|reflexivity]|].
  split; [destruct (Html.find_title soup); [apply strip_shape|reflexivity]|].
  match goal with
  | |- context [clean_text ?c] =>
      destruct (tidy_parts _ (clean_text_tidy c)) as (Hb & Hd & Hs & _);
      unfold Py.str_slice_to;
      destruct (str_take_shape
                  (Py.slice_stop 5000 (String.length (clean_text c)))
                  (clean_text c)) as (Kb & Kd & Ks)
  end.
  auto.
Qed.

Lemma get_page_links_same_site (base_url : string) (max_pages : Z)
      (w w' : World) (l : list string) :
  get_page_links E base_url max_pages w = (Returned l, w') ->
  sent w' = sent w ++ [seed_request base_url]
  /\ forall u, In u l ->
       u = base_url
       \/ exists n, netloc E u = Returned n /\ netloc E base_url = Returned n.
Proof.
  rewrite get_page_links_unfold; cbv zeta.
  assert (Hseed : forall u, In u [base_url] ->
             u = base_url
             \/ exists n, netloc E u = Returned n /\ netloc E base_url = Returned n)
    by (intros u [Hu|[]]; now left).
  destruct (http E (ticks w) (seed_request base_url)) as [r|e];
    [|intros H; inversion H; subst; split; [reflexivity|exact Hseed]].
  destruct (is_http_error r);
    [intros H; inversion H; subst; split; [reflexivity|exact Hseed]|].
  destruct (html_parser E (resp_content r)) as [soup|e];
    [|intros H; inversion H; subst; split; [reflexivity|exact Hseed]].
  destruct (collect_links E base_url max_pages (Html.anchor_hrefs soup) [base_url])
    as [links|e] eqn:Hloop;
    [|intros H; inversion H; subst; split; [reflexivity|exact Hseed]].
  intros H; inversion H; subst; clear H; split; [reflexivity|].
  intros u Hu; apply In_slice_to in Hu.
  destruct (collect_links_sound E base_url max_pages _ _ _ Hloop u Hu)
    as [[Hb|[]]|(href & n & _ & _ & Hn & Hb)]; [now left|right; eauto].
Qed.

(** A run of the scraping branch of [main] with a cap of at least one. *)
Lemma main_scrape_run (scrape_button : bool) (url : string) (num_pages : Z)
      (w : World) :
  1 <= num_pages ->
  exists w' reqs,
    main_scrape E scrape_button url num_pages w = (Returned tt, w')
    /\ sent w' = sent w ++ reqs
    /\ Z.of_nat (List.length reqs) <= 1 + num_pages
    /\ Forall (stays_on_site E url) reqs.
Proof.
  intros Hcap; unfold main_scrape.
  assert (Hnone : forall w0 : World, sent w0 = sent w ->
             exists w' reqs,
               (Returned tt, w0) = (Returned tt, w')
               /\ sent w' = sent w ++ reqs
               /\ Z.of_nat (List.length reqs) <= 1 + num_pages
               /\ Forall (stays_on_site E url) reqs).
  { intros w0 Hs; exists w0, []; rewrite app_nil_r; repeat split;
      [assumption|cbn [List.length]; lia|constructor]. }
  destruct (scrape_button && Py.truthy url); [|now apply Hnone].
  destruct (has_web_scheme url) eqn:Hscheme; cbn [negb]; [|now apply Hnone].
  cbv beta iota delta [bind st_info st_success st_error show].
  match goal with
  | |- context [get_page_links E url num_pages ?w0] =>
      destruct (get_page_links_bounds E url num_pages w0 Hcap)
        as (links & rest & w1 & Hlinks & Hshape & Hlen & _);
      destruct (get_page_links_same_site _ _ _ _ _ Hlinks) as [Hsent1 Hsite];
      rewrite Hlinks
  end.
  subst links; cbv beta iota.
  match goal with
  | |- context [main_scrape_loop E (url :: rest) 0 ?w2] =>
      destruct (main_scrape_loop_run E (url :: rest) 0 w2)
        as (count & w3 & Hloop & Hsent3 & _);
      rewrite Hloop
  end.
  cbv beta iota.
  eexists; exists (seed_request url :: map page_request (url :: rest)).
  split; [reflexivity|split; [|split]].
  - cbn [sent] in *; rewrite Hsent3, Hsent1, <- app_assoc; reflexivity.
  - cbn [List.length] in *; rewrite length_map; cbn [List.length]; lia.
  - constructor.
    + repeat split; try assumption; now left.
    + apply Forall_forall; intros rq Hrq.
      apply in_map_iff in Hrq; destruct Hrq as (u & Hrq & Hu); subst rq.
      repeat split; try assumption; cbn [req_url page_request].
      destruct (Hsite u Hu) as [Heq|Hn]; [now left|now right].
Qed.

(** The flag of the session, once set, keeps [main] from creating the
    table. *)
Lemma main_init_once (s : Session) (w : World) :
  exists s1 w1 b,
    main_init E s w = (Returned s1, w1)
    /\ db_initialized s1 = Some b
    /\ chat_history s1 = chat_history s
    /\ forall w2, main_init E s1 w2 = (Returned s1, w2).
Proof.
  unfold main_init at 1, bind.
  destruct (db_initialized s) as [b|] eqn:Hflag.
  - exists s, w, b; repeat split; try assumption.
    intros w2; unfold main_init; now rewrite Hflag.
  - destruct (create_database_table_outcome E w) as (b & w1 & Hrun & _).
    rewrite Hrun; eexists; exists w1, b; repeat split.
Qed.

(** The assistant tab when a question is asked. *)
Lemma main_assistant_ask (key question : string) (s : Session) (w : World) :
  Py.truthy key = true -> Py.truthy question = true ->
  exists s' w',
    main_assistant E key question true false s w = (Returned s', w')
    /\ db_initialized s' = db_initialized s
    /\ match fst (agent E (ticks w) key question (store w)) with
       | Returned answer =>
           if Py.truthy answer
           then chat_history s' = Some (history_of s ++ [(question, answer)])
                /\ shown w' = shown w
           else chat_history s' = Some (history_of s)
                /\ shown w' = shown w
                              ++ [(Error, "Failed to get response from AI agent.")]
       | Raised e =>
           chat_history s' = Some (history_of s)
           /\ shown w' = shown w
                         ++ [(Error, ("Agent error: " ++ e)%string);
                             (Error, "Failed to get response from AI agent.")]
       end.
Proof.
  intros Hkey Hq; unfold main_assistant; rewrite Hkey, Hq; simpl.
  unfold try_except, bind, agent_sql_tool, try_except, bind, agent_run.
  destruct (agent E (ticks w) key question (store w)) as [[answer|e] after]; simpl.
  - destruct (Py.truthy answer) eqn:Hanswer; simpl;
      eexists; eexists; (split; [reflexivity|split; [reflexivity|]]);
      rewrite ?Hanswer; split; reflexivity.
  - eexists; eexists; split; [reflexivity|split; [reflexivity|]].
    simpl; rewrite <- app_assoc; split; reflexivity.
Qed.

End Runs.

(* ================================================================== *)
(** * Further properties of the script *)

(** X1.  [create_database_table] never raises and sends nothing; a table
    that exists is left exactly as it is, whatever happens to the call; a
    table that is missing is created empty when the call returns [True] and
    stays missing when it returns [False]; and the call returns [True]
    whenever the server answers. *)
Theorem create_database_table_spares_the_table (E : Env) (w : World) :
  exists b w',
    create_database_table E w = (Returned b, w')
    /\ sent w' = sent w
    /\ (forall t, store w = Some t -> store w' = Some t)
    /\ (store w = None -> store w' = if b then Some Sql.empty_table else None)
    /\ (db_answers E w -> b = true).
Proof.
  destruct (create_database_table_outcome E w) as (b & w' & Hrun & Hsent & Hstore).
  exists b, w'; split; [exact Hrun|split; [exact Hsent|split; [|split]]].
  - intros t Ht; now rewrite Ht in Hstore.
  - intros Ht; now rewrite Ht in Hstore.
  - intros Hdb; rewrite (create_database_table_ok E w Hdb) in Hrun.
    now inversion Hrun.
Qed.

(** X2.  For a cap of at least one, [get_page_links] returns, whatever the
    network and the page do, a list that starts with the seed, is never
    empty, holds at most [max_pages] addresses and holds none twice. *)
Theorem get_page_links_starts_with_seed
        (E : Env) (base_url : string) (max_pages : Z) (w : World) :
  1 <= max_pages ->
  exists l rest w',
    get_page_links E base_url max_pages w = (Returned l, w')
    /\ l = base_url :: rest
    /\ Z.of_nat (List.length l) <= max_pages
    /\ NoDup l.
Proof. apply get_page_links_bounds. Qed.

Lemma get_page_links_starts_with_seed_witness :
  exists l rest w',
    get_page_links Lab.lab Lab.home 2 (Lab.world None) = (Returned l, w')
    /\ l = Lab.home :: rest
    /\ Z.of_nat (List.length l) <= 2.
Proof.
  destruct (get_page_links_starts_with_seed Lab.lab Lab.home 2 (Lab.world None))
    as (l & rest & w' & Hrun & Hl & Hlen & _); [lia|].
  exists l, rest, w'; auto.
Defined.

(** X3.  When the seed is fetched and parsed and every link can be
    resolved, [get_page_links] returns the first [max_pages] entries of one
    list: the seed, followed by the same-site addresses in the order of the
    page, each at its first occurrence. *)
Theorem get_page_links_follows_page_order
        (E : Env) (base_url : string) (max_pages : Z) (w : World)
        (r : Response) (soup : Html.soup) :
  http E (ticks w) (seed_request base_url) = Returned r ->
  is_http_error r = false ->
  html_parser E (resp_content r) = Returned soup ->
  parses E base_url (Html.anchor_hrefs soup) ->
  1 <= max_pages ->
  get_page_links E base_url max_pages w
  = (Returned
       (firstn (Z.to_nat max_pages)
          (fold_left add_new
             (filter (same_domain E base_url)
                     (resolved E base_url (Html.anchor_hrefs soup)))
             [base_url])),
     requested (seed_request base_url) w).
Proof. apply get_page_links_in_page_order. Qed.

Lemma get_page_links_follows_page_order_witness :
  get_page_links Lab.lab Lab.home 3 (Lab.world None)
  = (Returned [Lab.home; "https://example.com/about"; "https://example.com/news"],
     requested (seed_request Lab.home) (Lab.world None)).
Proof.
  rewrite (get_page_links_follows_page_order
             Lab.lab Lab.home 3 (Lab.world None)
             (mkResponse 200 "<html>home</html>") (Lab.p_soup Lab.home_page)).
  - reflexivity.
  - reflexivity.
  - reflexivity.
  - reflexivity.
  - split; [eexists; reflexivity|].
    intros href Hhref; eexists; eexists; split; reflexivity.
  - lia.
Defined.

(** X4.  The text [clean_text] returns is one tidy line: it holds no
    character at which [splitlines] cuts, no two spaces side by side, and
    no white space at its start or its end. *)
Theorem clean_text_leaves_one_tidy_line (content : string) :
  Shape.no_break (clean_text content) = true
  /\ Shape.no_double_blank (clean_text content) = true
  /\ Shape.starts_clean (clean_text content) = true
  /\ Shape.ends_clean (clean_text content) = true.
Proof. apply tidy_parts, clean_text_tidy. Qed.

(** X5.  Cleaning a cleaned text changes nothing. *)
Theorem clean_text_twice (content : string) :
  clean_text (clean_text content) = clean_text content.
Proof. apply clean_text_fixed, clean_text_tidy. Qed.

(** X6.  A dictionary [scrape_page] returns carries the address that was
    asked for; its title has no white space at either end; its content
    holds no line break and no two spaces side by side and does not start
    with white space.  The call has sent one request and has touched
    neither the table nor the messages. *)
Theorem scrape_page_result_is_tidy
        (E : Env) (url : string) (w w' : World) (d : page_data) :
  scrape_page E url w = (Returned (Some d), w') ->
  w' = requested (page_request url) w
  /\ d_url d = url
  /\ Shape.starts_clean (d_title d) = true
  /\ Shape.ends_clean (d_title d) = true
  /\ Shape.no_break (d_content d) = true
  /\ Shape.no_double_blank (d_content d) = true
  /\ Shape.starts_clean (d_content d) = true.
Proof. apply scrape_page_shape. Qed.

Lemma scrape_page_result_is_tidy_witness :
  exists d,
    scrape_page Lab.lab Lab.home (Lab.world None)
    = (Returned (Some d), requested (page_request Lab.home) (Lab.world None))
    /\ d_title d = "Example"
    /\ Shape.no_double_blank (d_content d) = true.
Proof.
  eexists; split; [vm_compute; reflexivity|split; [reflexivity|]].
  apply (scrape_page_result_is_tidy
           Lab.lab Lab.home (Lab.world None)
           (requested (page_request Lab.home) (Lab.world None))).
  vm_compute; reflexivity.
Defined.

(** X7.  After [scrape_page] has removed the [script] and [style] tags, no
    such tag is left anywhere in the document, at any depth; and a document
    that holds none is not changed by the removal. *)
Theorem scripts_and_styles_are_removed (doc : Html.soup) :
  Html.soup_find_all (named removed_tags)
                     (Html.soup_decompose ["script"; "style"] doc) = []
  /\ (Html.soup_find_all (named removed_tags) doc = [] ->
      Html.soup_decompose ["script"; "style"] doc = doc)
  /\ Html.soup_decompose ["script"; "style"]
                         (Html.soup_decompose ["script"; "style"] doc)
     = Html.soup_decompose ["script"; "style"] doc.
Proof.
  split; [apply (soup_decompose_clears removed_tags)|split].
  - apply (soup_decompose_keeps removed_tags).
  - apply (soup_decompose_keeps removed_tags),
      (soup_decompose_clears removed_tags).
Qed.

(** X8.  When the server answers and the table exists, [get_scraped_data]
    returns every row of the table exactly once, the newest first, and
    leaves the table and the messages as they are. *)
Theorem get_scraped_data_newest_first (E : Env) (w : World) (t : Sql.table) :
  db_fault E (ticks w) = None -> db_fault E (S (ticks w)) = None ->
  store w = Some t ->
  exists df w',
    get_scraped_data E w = (Returned df, w')
    /\ Permutation (Sql.rows t) df
    /\ StronglySorted newest_first df
    /\ store w' = Some t
    /\ shown w' = shown w.
Proof.
  intros F0 F1 Ht.
  exists (Sql.order_by_scraped_at_desc (Sql.rows t)); eexists; split.
  - unfold get_scraped_data, try_except, bind, pyodbc_connect, read_sql, ret,
      tick; simpl; rewrite F0, F1, Ht; reflexivity.
  - split; [apply order_by_perm|split; [apply order_by_sorted|]].
    split; reflexivity.
Qed.

Lemma get_scraped_data_newest_first_witness :
  exists df w',
    get_scraped_data Lab.lab (Lab.world (Some Lab.three_rows)) = (Returned df, w')
    /\ Permutation (Sql.rows Lab.three_rows) df.
Proof.
  destruct (get_scraped_data_newest_first
              Lab.lab (Lab.world (Some Lab.three_rows)) Lab.three_rows
              eq_refl eq_refl eq_refl) as (df & w' & Hrun & Hperm & _).
  exists df, w'; auto.
Defined.

(** X9.  Whether [save_to_database] succeeds or gives up, at any of its
    three calls, a table whose keys increase in insertion order is left
    with increasing, hence distinct, keys; every row that was there is still
    there, in place, and the identity counter has not gone back. *)
Theorem save_to_database_keeps_the_keys
        (E : Env) (d : page_data) (w : World) (t : Sql.table) :
  store w = Some t -> Keys.well_keyed t ->
  exists t' extra,
    store (snd (save_to_database E d w)) = Some t'
    /\ Keys.well_keyed t'
    /\ NoDup (map Sql.r_id (Sql.rows t'))
    /\ Sql.rows t' = Sql.rows t ++ extra
    /\ Sql.next_identity t <= Sql.next_identity t'.
Proof.
  intros Ht Hkeys.
  destruct (save_to_database_keeps_keys E d w t Ht Hkeys)
    as (t' & extra & Hst & Hk & Hrows & Hid).
  exists t', extra; repeat split; try assumption.
  exact (increasing_below_NoDup _ _ Hk).
Qed.

Lemma save_to_database_keeps_the_keys_witness :
  exists t' extra,
    store (snd (save_to_database Lab.lab (mkPage Lab.home "Example" "text")
                                 (Lab.world (Some Lab.three_rows)))) = Some t'
    /\ Keys.well_keyed t'
    /\ Sql.rows t' = Sql.rows Lab.three_rows ++ extra
    /\ List.length extra = 1%nat.
Proof.
  destruct (save_to_database_keeps_the_keys
              Lab.lab (mkPage Lab.home "Example" "text")
              (Lab.world (Some Lab.three_rows)) Lab.three_rows)
    as (t' & extra & Hst & Hk & _ & Hrows & _).
  - reflexivity.
  - split; [reflexivity|split; [repeat constructor|]].
    split; [reflexivity|split; [repeat constructor|]].
    split; [reflexivity|split; [constructor|exact I]].
  - exists t', extra; repeat split; try assumption.
    vm_compute in Hst; inversion Hst; subst t'.
    apply (f_equal (@List.length Sql.row)) in Hrows.
    rewrite length_app in Hrows; simpl in Hrows; lia.
Defined.

(** X10.  For a text [u] with no quote in it, [clear_database] never adds
    or changes a row and never moves the identity counter.  When it returns
    [False] the rows are all still there.  When it returns [True] the rows
    that are gone are those whose [url] matches [u] followed by [%] as a
    LIKE pattern, so [%], [_] and [[] in [u] act as wild cards; the keys of
    the rows that stay keep increasing. *)
Theorem clear_database_only_removes_rows
        (E : Env) (u : string) (w : World) (t : Sql.table) :
  quote_free u = true -> store w = Some t ->
  exists b w' t',
    clear_database E u w = (Returned b, w')
    /\ store w' = Some t'
    /\ Sql.next_identity t' = Sql.next_identity t
    /\ Sql.rows t'
       = (if b
          then filter (fun r => negb (Sql.like (collation E) (Sql.r_url r)
                                               (u ++ "%")%string)) (Sql.rows t)
          else Sql.rows t)
    /\ (forall r, In r (Sql.rows t') -> In r (Sql.rows t))
    /\ (Keys.well_keyed t -> Keys.well_keyed t').
Proof.
  intros Hu Ht.
  destruct (clear_database_outcome E u w t Hu Ht)
    as (b & w' & t' & Hrun & Hst & Hid & Hrows).
  exists b, w', t'; repeat split; try assumption.
  - intros r Hr; rewrite Hrows in Hr; destruct b; [|exact Hr].
    apply filter_In in Hr; tauto.
  - unfold Keys.well_keyed; rewrite Hid, Hrows; intros Hk.
    destruct b; [now apply increasing_below_filter|exact Hk].
Qed.

(** X10 at a table of three rows and the text [_]: no [url] starts with an
    underscore, and every row is removed. *)
Lemma clear_database_only_removes_rows_witness :
  exists w' t',
    clear_database Lab.lab "_" (Lab.world (Some Lab.three_rows)) = (Returned true, w')
    /\ store w' = Some t'
    /\ Sql.rows t' = [].
Proof.
  destruct (clear_database_only_removes_rows
              Lab.lab "_" (Lab.world (Some Lab.three_rows)) Lab.three_rows
              eq_refl eq_refl)
    as (b & w' & t' & Hrun & Hst & _ & Hrows & _).
  assert (Hb : b = true) by (vm_compute in Hrun; now inversion Hrun).
  subst b; exists w', t'; repeat split; assumption.
Defined.

(** X11.  The server reads the statement [clear_database] builds as the
    delete with the pattern [u] followed by [%] exactly when [u] holds no
    quote; with a quote in [u] the text is another statement, or a delete
    with another pattern. *)
Theorem clear_statement_is_read_as_written (u : string) :
  Sql.classify (clear_statement u) = Sql.DeleteUrlLike (u ++ "%")%string
  <-> quote_free u = true.
Proof. apply classify_quote_free. Qed.

(** X12.  The scraping loop never raises.  It sends one request for each
    address, in order.  The count it returns grows by at most the number of
    addresses, and by exactly the number of rows the run has appended to
    the table; each new row belongs to one of the addresses and holds at
    most 5000 characters of content; the rows that were there are kept.
    When the table is missing the count does not grow. *)
Theorem scrape_loop_counts_what_it_stores
        (E : Env) (links : list string) (count : Z) (w : World) :
  exists count' w',
    main_scrape_loop E links count w = (Returned count', w')
    /\ sent w' = sent w ++ map page_request links
    /\ count <= count' <= count + Z.of_nat (List.length links)
    /\ match store w with
       | None => count' = count /\ store w' = None
       | Some t =>
           exists t' extra,
             store w' = Some t'
             /\ Sql.rows t' = Sql.rows t ++ extra
             /\ Z.of_nat (List.length extra) = count' - count
             /\ Forall (scraped_from links) extra
       end.
Proof. apply main_scrape_loop_run. Qed.

(** X13.  A run of the scraping branch of [main] with a cap of at least
    one never raises and sends at most one request more than the cap; every
    request is a GET with a timeout of 10 seconds, is sent only when the
    address typed in starts with [http://] or [https://], and goes to that
    address or to an address with the same netloc. *)
Theorem main_scrape_stays_on_site
        (E : Env) (scrape_button : bool) (url : string) (num_pages : Z)
        (w : World) :
  1 <= num_pages ->
  exists w' reqs,
    main_scrape E scrape_button url num_pages w = (Returned tt, w')
    /\ sent w' = sent w ++ reqs
    /\ Z.of_nat (List.length reqs) <= 1 + num_pages
    /\ Forall (stays_on_site E url) reqs.
Proof. apply main_scrape_run. Qed.

Lemma main_scrape_stays_on_site_witness :
  exists w' reqs,
    main_scrape Lab.lab true Lab.home 2 (Lab.world (Some Sql.empty_table))
    = (Returned tt, w')
    /\ sent w' = reqs
    /\ Z.of_nat (List.length reqs) <= 3.
Proof.
  destruct (main_scrape_stays_on_site
              Lab.lab true Lab.home 2 (Lab.world (Some Sql.empty_table)))
    as (w' & reqs & Hrun & Hsent & Hlen & _); [lia|].
  exists w', reqs; auto.
Defined.

(** X14.  When a question is asked with a key, the assistant tab never
    raises and keeps the history it found: the pair of question and answer
    is appended exactly when the agent returns an answer that is not the
    empty text.  An empty answer is reported as a failure like an exception
    of the agent, and the history stays as it was. *)
Theorem assistant_history_grows_by_answers
        (E : Env) (key question : string) (s : Session) (w : World) :
  Py.truthy key = true -> Py.truthy question = true ->
  exists s' w',
    main_assistant E key question true false s w = (Returned s', w')
    /\ db_initialized s' = db_initialized s
    /\ match fst (agent E (ticks w) key question (store w)) with
       | Returned answer =>
           if Py.truthy answer
           then chat_history s' = Some (history_of s ++ [(question, answer)])
                /\ shown w' = shown w
           else chat_history s' = Some (history_of s)
                /\ shown w' = shown w
                              ++ [(Error, "Failed to get response from AI agent.")]
       | Raised e =>
           chat_history s' = Some (history_of s)
           /\ shown w' = shown w
                         ++ [(Error, ("Agent error: " ++ e)%string);
                             (Error, "Failed to get response from AI agent.")]
       end.
Proof. apply main_assistant_ask. Qed.

Lemma assistant_history_grows_by_answers_witness :
  exists s' w',
    main_assistant (lab_answering "3 pages") "key" "How many pages?" true false
                   fresh_session (Lab.world None) = (Returned s', w')
    /\ chat_history s' = Some [("How many pages?", "3 pages")].
Proof.
  destruct (assistant_history_grows_by_answers
              (lab_answering "3 pages") "key" "How many pages?"
              fresh_session (Lab.world None) eq_refl eq_refl)
    as (s' & w' & Hrun & _ & Hhist).
  exists s', w'; split; [exact Hrun|exact (proj1 Hhist)].
Defined.

(** X15.  [main] creates the table once a session.  When that one call
    fails at the connection and the table is missing, the session keeps the
    flag [False]; from then on [main] does not call
    [create_database_table] again, and as long as the table is missing
    every [save_to_database] returns [False] and stores nothing. *)
Theorem failed_table_creation_is_not_retried
        (E : Env) (w : World) (e : string) :
  store w = None -> first_fault E (ticks w) 3 = Some e ->
  exists w1,
    main_init E fresh_session w
    = (Returned {| db_initialized := Some false; chat_history := None |}, w1)
    /\ store w1 = None
    /\ forall w2 d,
         store w2 = None ->
         main_init E {| db_initialized := Some false; chat_history := None |} w2
         = (Returned {| db_initialized := Some false; chat_history := None |}, w2)
         /\ exists w3, save_to_database E d w2 = (Returned false, w3)
                       /\ store w3 = None.
Proof.
  intros Hstore Hfault.
  destruct (create_database_table_fault E w e Hfault) as (w1 & Hrun & _).
  destruct (create_database_table_outcome E w) as (b & w1' & Hrun' & _ & Hst).
  rewrite Hrun in Hrun'; inversion Hrun'; subst b w1'; clear Hrun'.
  rewrite Hstore in Hst.
  exists w1; split; [|split; [exact Hst|]].
  - unfold main_init, bind; simpl; now rewrite Hrun.
  - intros w2 d Hnone; split; [reflexivity|].
    destruct (save_to_database_outcome E d w2) as (b & w3 & Hsave & _ & Hout).
    rewrite Hnone in Hout; destruct Hout as [Hb Hst3]; subst b.
    now exists w3.
Qed.

Lemma failed_table_creation_is_not_retried_witness :
  exists w1,
    main_init lab_offline fresh_session (Lab.world None)
    = (Returned {| db_initialized := Some false; chat_history := None |}, w1)
    /\ store w1 = None.
Proof.
  destruct (failed_table_creation_is_not_retried
              lab_offline (Lab.world None) "Login timeout expired"
              eq_refl eq_refl) as (w1 & Hrun & Hst & _).
  exists w1; auto.
Defined.

(** X16.  With a cap of 0, [get_page_links] returns the empty list when the
    page was read, and the seed alone, after showing its error, when
    something failed: the seed is in the result only after a failure. *)
Theorem get_page_links_with_cap_zero
        (E : Env) (base_url : string) (w w' : World) (l : list string) :
  get_page_links E base_url 0 w = (Returned l, w') ->
  (l = [] /\ shown w' = shown w)
  \/ (l = [base_url]
      /\ exists e, shown w' = shown w
                              ++ [(Error, ("Error getting page links: " ++ e)%string)]).
Proof.
  rewrite get_page_links_unfold; cbv zeta.
  destruct (http E (ticks w) (seed_request base_url)) as [r|e];
    [|intros H; inversion H; subst; right; split; [reflexivity|now exists e]].
  destruct (is_http_error r);
    [intros H; inversion H; subst; right; split; [reflexivity|eexists; reflexivity]|].
  destruct (html_parser E (resp_content r)) as [soup|e];
    [|intros H; inversion H; subst; right; split; [reflexivity|now exists e]].
  destruct (collect_links E base_url 0 (Html.anchor_hrefs soup) [base_url])
    as [links|e];
    [|intros H; inversion H; subst; right; split; [reflexivity|now exists e]].
  intros H; inversion H; subst; left; split; reflexivity.
Qed.

Lemma get_page_links_with_cap_zero_witness :
  get_page_links Lab.lab Lab.home 0 (Lab.world None)
  = (Returned [], requested (seed_request Lab.home) (Lab.world None))
  /\ ([] = @nil string
      \/ exists e : string,
           shown (requested (seed_request Lab.home) (Lab.world None))
           = [(Error, ("Error getting page links: " ++ e)%string)]).
Proof.
  split; [reflexivity|].
  destruct (get_page_links_with_cap_zero
              Lab.lab Lab.home (Lab.world None)
              (requested (seed_request Lab.home) (Lab.world None)) [] eq_refl)
    as [[Hl _]|[_ He]]; [now left|right; exact He].
Defined.

(** X17.  A page whose fetch fails is skipped: the loop body shows the
    error of [scrape_page], returns without counting the page, and has not
    called the database, so the table is as it was. *)
Theorem failed_page_is_not_stored (E : Env) (link : string) (w : World) :
  fetch_fails E (page_request link) w ->
  exists e,
    main_scrape_one E link w
    = (Returned false,
       {| store := store w;
          shown := shown w ++ [(Error, ("Error scraping " ++ link ++ ": " ++ e)%string)];
          sent := sent w ++ [page_request link];
          ticks := S (ticks w) |}).
Proof.
  intros Hfail; destruct (scrape_page_fetch_fails E link w Hfail) as [e He].
  exists e; unfold main_scrape_one, bind; rewrite He; reflexivity.
Qed.

Lemma failed_page_is_not_stored_witness :
  exists e w',
    main_scrape_one Lab.lab "https://example.com/gone"
                    (Lab.world (Some Lab.three_rows))
    = (Returned false, w')
    /\ store w' = Some Lab.three_rows
    /\ shown w' = [(Error, ("Error scraping https://example.com/gone: " ++ e)%string)].
Proof.
  destruct (failed_page_is_not_stored
              Lab.lab "https://example.com/gone" (Lab.world (Some Lab.three_rows)))
    as [e He].
  - right; eexists; split; reflexivity.
  - exists e; eexists; split; [exact He|split; reflexivity].
Defined.

(** X18.  When the seed is fetched and parsed and every link can be
    resolved, a larger cap only adds addresses at the end: the result for a
    cap is the start of the result for every larger cap. *)
Theorem larger_cap_extends_the_result
        (E : Env) (base_url : string) (small large : Z) (w : World)
        (r : Response) (soup : Html.soup) :
  http E (ticks w) (seed_request base_url) = Returned r ->
  is_http_error r = false ->
  html_parser E (resp_content r) = Returned soup ->
  parses E base_url (Html.anchor_hrefs soup) ->
  1 <= small <= large ->
  exists l_small l_large,
    get_page_links E base_url small w
    = (Returned l_small, requested (seed_request base_url) w)
    /\ get_page_links E base_url large w
       = (Returned l_large, requested (seed_request base_url) w)
    /\ l_small = firstn (Z.to_nat small) l_large.
Proof.
  intros Hget Hok Hparse Hlinks Hcaps.
  rewrite (get_page_links_in_page_order E base_url small w r soup)
    by (try assumption; lia).
  rewrite (get_page_links_in_page_order E base_url large w r soup)
    by (try assumption; lia).
  eexists; eexists; split; [reflexivity|split; [reflexivity|]].
  rewrite firstn_firstn; f_equal; lia.
Qed.

Lemma larger_cap_extends_the_result_witness :
  exists l_small l_large,
    get_page_links Lab.lab Lab.home 2 (Lab.world None)
    = (Returned l_small, requested (seed_request Lab.home) (Lab.world None))
    /\ get_page_links Lab.lab Lab.home 3 (Lab.world None)
       = (Returned l_large, requested (seed_request Lab.home) (Lab.world None))
    /\ l_small = firstn 2 l_large.
Proof.
  apply (larger_cap_extends_the_result
           Lab.lab Lab.home 2 3 (Lab.world None)
           (mkResponse 200 "<html>home</html>") (Lab.p_soup Lab.home_page)).
  - reflexivity.
  - reflexivity.
  - reflexivity.
  - split; [eexists; reflexivity|].
    intros href Hhref; eexists; eexists; split; reflexivity.
  - lia.
Defined.
